(** * Quizzmaster: a shallow embedding of the quiz flow, the auth context,
      the route table and the quiz controller.

    Sources embedded here:
    - [frontend/src/components/user/TakeQuiz.tsx] (the timed quiz flow),
    - [frontend/src/context/AuthContext.tsx] (token session, [isAdmin]),
    - [frontend/src/App.tsx] (the route table and its guards),
    - [backend/src/controllers/quiz.controller.ts] (quiz CRUD handlers). *)

From Stdlib Require Import ZArith String Ascii List Lia DecimalString DecimalPos.
From stdpp Require Import base gmap strings list fin_maps.

Local Open Scope string_scope.
Local Open Scope Z_scope.

(** ** The JavaScript primitives the sources rely on *)

Module JS.

(** [Number.prototype.toString] on an integer. *)
Definition toString (n : Z) : string := NilZero.string_of_int (Z.to_int n).

(** The filler of [padStart]: [n] characters read cyclically from [pad]. *)
Fixpoint fill (pad cur : string) (n : nat) : string :=
  match n with
  | O => ""
  | S n' =>
      match cur with
      | String c rest => String c (fill pad rest n')
      | EmptyString =>
          match pad with
          | String c rest => String c (fill pad rest n')
          | EmptyString => ""
          end
      end
  end.

(** [String.prototype.padStart(target, pad)]: a string that is already
    long enough is returned as it is. *)
Definition padStart (target : nat) (pad s : string) : string :=
  if (target <=? String.length s)%nat then s
  else fill pad pad (target - String.length s) ++ s.

(** [a % b]: the remainder takes the sign of the dividend. *)
Definition rem (a b : Z) : Z := Z.rem a b.

(** [Math.floor(a / b)] on integers, for a positive divisor. *)
Definition floor_div (a b : Z) : Z := a / b.

(** White space skipped by [parseInt]: the ASCII blanks and line ends. *)
Definition is_space (c : ascii) : bool :=
  let n := nat_of_ascii c in
  ((n =? 32) || (n =? 9) || (n =? 10) || (n =? 11) || (n =? 12) || (n =? 13))%nat.

(** A string is the UTF-8 bytes of its text.  The first byte of the blanks
    beyond ASCII, and those blanks: U+00A0; and U+1680, U+2000 to U+200A,
    U+2028, U+2029, U+202F, U+205F, U+3000 and U+FEFF. *)
Definition is_wide_lead (c : ascii) : bool :=
  let n := nat_of_ascii c in
  ((n =? 194) || (n =? 225) || (n =? 226) || (n =? 227) || (n =? 239))%nat.

Definition is_space2 (c1 c2 : ascii) : bool :=
  ((nat_of_ascii c1 =? 194) && (nat_of_ascii c2 =? 160))%nat.

Definition is_space3 (c1 c2 c3 : ascii) : bool :=
  let a := nat_of_ascii c1 in
  let b := nat_of_ascii c2 in
  let c := nat_of_ascii c3 in
  (((a =? 225) && (b =? 154) && (c =? 128))
   || ((a =? 226) && (b =? 128)
       && (((128 <=? c) && (c <=? 138)) || (c =? 168) || (c =? 169) || (c =? 175)))
   || ((a =? 226) && (b =? 129) && (c =? 159))
   || ((a =? 227) && (b =? 128) && (c =? 128))
   || ((a =? 239) && (b =? 187) && (c =? 191)))%nat.

Fixpoint trim_start (s : string) : string :=
  match s with
  | String c1 r1 =>
      if is_space c1 then trim_start r1
      else if is_wide_lead c1 then
        match r1 with
        | String c2 r2 =>
            if is_space2 c1 c2 then trim_start r2
            else
              match r2 with
              | String c3 r3 => if is_space3 c1 c2 c3 then trim_start r3 else s
              | EmptyString => s
              end
        | EmptyString => s
        end
      else s
  | EmptyString => s
  end.

(** The value of a digit in a radix up to 16, if it is one. *)
Definition digit_value (radix : Z) (c : ascii) : option Z :=
  let n := Z.of_nat (nat_of_ascii c) in
  let v := if (48 <=? n) && (n <=? 57) then Some (n - 48)
           else if (97 <=? n) && (n <=? 102) then Some (n - 87)
           else if (65 <=? n) && (n <=? 70) then Some (n - 55)
           else None in
  match v with
  | Some d => if d <? radix then Some d else None
  | None => None
  end.

(** The longest prefix of digits, read left to right; [None] when the
    string does not start with a digit ([NaN]). *)
Fixpoint digits (radix : Z) (acc : option Z) (s : string) : option Z :=
  match s with
  | String c rest =>
      match digit_value radix c with
      | Some d => digits radix (Some (match acc with Some a => a * radix + d | None => d end)) rest
      | None => acc
      end
  | EmptyString => acc
  end.

(** [parseInt(s)] without a radix: leading white space, an optional sign,
    an optional [0x] prefix, then digits.  [None] stands for [NaN]; the
    result is the integer the digits write, exactly, also where a JavaScript
    number would round it (beyond 2^53). *)
Definition parseInt (s : string) : option Z :=
  let s1 := trim_start s in
  let '(sign, s2) :=
    match s1 with
    | String "-" rest => (-1, rest)
    | String "+" rest => (1, rest)
    | _ => (1, s1)
    end in
  let '(radix, s3) :=
    match s2 with
    | String "0" (String "x" rest) => (16, rest)
    | String "0" (String "X" rest) => (16, rest)
    | _ => (10, s2)
    end in
  match digits radix None s3 with
  | Some v => Some (sign * v)
  | None => None
  end.

(** [s || d] on an optional string: [undefined] and the empty string are
    falsy. *)
Definition or_string (s : option string) (d : string) : string :=
  match s with
  | Some (String c rest) => String c rest
  | _ => d
  end.

End JS.

(** ** AuthContext: the token session *)

Module AuthContext.

Record User := {
  id : Z;
  username : string;
  fullName : string;
  qualification : option string;
  dob : option string;
  role : string
}.

(** The provider's state together with the browser's [localStorage]. *)
Record AuthState := {
  user : option User;
  token : option string;
  loading : bool;
  error : option string;
  localStorage : gmap string string
}.

(** [useState] initial values: the token is read from [localStorage],
    an empty one counts as none ([|| null]). *)
Definition init (storage : gmap string string) : AuthState :=
  {| user := None;
     token := match storage !! "token" with
              | Some (String c rest) => Some (String c rest)
              | _ => None
              end;
     loading := true;
     error := None;
     localStorage := storage |}.

(** What [loginApi] answers: the token and the user, or a rejection that
    may carry [error.response.data.message]. *)
Inductive LoginResponse :=
| LoginOk (newToken : string) (userData : User)
| LoginRejected (message : option string).

(** [login] returns the user, or rethrows after recording the message. *)
Definition login (r : LoginResponse) (s : AuthState) : AuthState * option User :=
  let s0 := {| user := user s; token := token s; loading := loading s;
               error := None; localStorage := localStorage s |} in
  match r with
  | LoginOk newToken userData =>
      ({| user := Some userData;
          token := Some newToken;
          loading := loading s0;
          error := error s0;
          localStorage := <["token" := newToken]> (localStorage s0) |},
       Some userData)
  | LoginRejected message =>
      ({| user := user s0; token := token s0; loading := loading s0;
          error := Some (JS.or_string message "Login failed");
          localStorage := localStorage s0 |},
       None)
  end.

Definition logout (s : AuthState) : AuthState :=
  {| user := None;
     token := None;
     loading := loading s;
     error := error s;
     localStorage := delete "token" (localStorage s) |}.

(** [user?.role === 'admin'] *)
Definition isAdmin (s : AuthState) : bool :=
  match user s with
  | Some u => bool_decide (role u = "admin")
  | None => false
  end.

(** The effect on [token]: with a token ([if (token)], so not an empty
    one) the profile is fetched; a failed fetch logs out. *)
Definition initializeAuth (profile : option User) (s : AuthState) : AuthState :=
  match token s with
  | Some (String _ _) =>
      let s1 := match profile with
                | Some u => {| user := Some u; token := token s; loading := loading s;
                               error := error s; localStorage := localStorage s |}
                | None => logout s
                end in
      {| user := user s1; token := token s1; loading := false;
         error := error s1; localStorage := localStorage s1 |}
  | _ =>
      {| user := user s; token := token s; loading := false;
         error := error s; localStorage := localStorage s |}
  end.

End AuthContext.

(** ** App: the route table *)

Module App.

Inductive Guard := Public | PrivateRoute | AdminRoute | NavigateTo (target : string).

Record Route := { path : string; guard : Guard; element : string }.

Definition routes : list Route :=
  [ {| path := "/login"; guard := Public; element := "Login" |};
    {| path := "/register"; guard := Public; element := "Register" |};
    {| path := "/dashboard"; guard := PrivateRoute; element := "UserDashboard" |};
    {| path := "/profile"; guard := PrivateRoute; element := "UserProfile" |};
    {| path := "/quizzes"; guard := PrivateRoute; element := "QuizList" |};
    {| path := "/quiz/:id"; guard := PrivateRoute; element := "TakeQuiz" |};
    {| path := "/results/:id"; guard := PrivateRoute; element := "QuizResults" |};
    {| path := "/admin"; guard := AdminRoute; element := "AdminDashboard" |};
    {| path := "/admin/users"; guard := AdminRoute; element := "ManageUsers" |};
    {| path := "/admin/subjects"; guard := AdminRoute; element := "ManageSubjects" |};
    {| path := "/admin/chapters"; guard := AdminRoute; element := "ManageChapters" |};
    {| path := "/admin/quizzes"; guard := AdminRoute; element := "ManageQuizzes" |};
    {| path := "/admin/quizzes/:id/questions"; guard := AdminRoute;
       element := "ManageQuestions" |};
    {| path := "/"; guard := NavigateTo "/login"; element := "Navigate" |} ].

Definition under_admin (r : Route) : bool := String.prefix "/admin" (path r).

End App.

(** ** The quiz controller *)

Module QuizController.

(** The values a field of a JSON request body, or a column, can hold: an
    absent field is [undefined]; numbers are the integers; an array or an
    object is carried as its JSON text. *)
Inductive JsValue :=
| JUndefined
| JNull
| JBool (b : bool)
| JNum (n : Z)
| JStr (s : string)
| JComposite (text : string).

#[global] Instance JsValue_eq_dec : EqDecision JsValue.
Proof. solve_decision. Defined.

(** Truthiness: [undefined], [null], [false], [0] and [''] are falsy. *)
Definition truthy (v : JsValue) : bool :=
  match v with
  | JUndefined | JNull => false
  | JBool b => b
  | JNum n => negb (n =? 0)
  | JStr s => negb (bool_decide (s = ""))
  | JComposite _ => true
  end.

(** [a || b] *)
Definition or (a b : JsValue) : JsValue := if truthy a then a else b.

(** [a !== b]: scalars are compared by value; an array or object parsed
    from a request is a new object, identical to nothing else. *)
Definition strict_ne (a b : JsValue) : bool :=
  match a, b with
  | JComposite _, _ | _, JComposite _ => true
  | _, _ => negb (bool_decide (a = b))
  end.

Record ChapterRow := { chapter_name : JsValue }.

(** A row of the quizzes table, with the columns the controller writes. *)
Record QuizRow := {
  name : JsValue;
  remarks : JsValue;
  chapter_id : JsValue;
  date_of_quiz : Z;
  time_duration : JsValue
}.

(** Modelled from the spec: the models of [../models] are not among the
    sources; the spec names a relational schema of quizzes and chapters
    reached through an object-relational mapper.  Tables are finite maps
    from integer primary keys to rows, and a column holds the value it was
    given. *)
Record DB := {
  chapters : gmap Z ChapterRow;
  quizzes : gmap Z QuizRow
}.

(** A loaded model instance: its primary key and its data values. *)
Definition Instance_ : Type := Z * QuizRow.

(** The mapper calls the controller makes. *)
Inductive OrmCall :=
| ChapterFindByPk (key : JsValue)
| QuizFindOne (name_is chapter_is : JsValue)
| QuizCreate (row : QuizRow)
| QuizFindByPk (key : option Z)
| QuizUpdate (id : Z) (row : QuizRow)
| QuizDestroy (id : Z).

(** A mapper call either resolves with a value or rejects; the database
    is threaded through. *)
Definition Orm (A : Type) : Type := DB -> option A * DB.

#[global] Instance Orm_ret : MRet Orm := fun A a db => (Some a, db).
#[global] Instance Orm_bind : MBind Orm := fun A B f m db =>
  match m db with
  | (Some a, db') => f a db'
  | (None, db') => (None, db')
  end.

Record Response := {
  status : Z;
  message : string;
  quiz : option Instance_
}.

Definition json (st : Z) (msg : string) : Response :=
  {| status := st; message := msg; quiz := None |}.

(** [try { ... } catch { return res.status(500)... }] *)
Definition try_catch (body : Orm Response) (db : DB) : Response * DB :=
  match body db with
  | (Some r, db') => (r, db')
  | (None, db') => (json 500 "Internal server error", db')
  end.

Record Body := {
  title : JsValue;
  description : JsValue;
  chapterId : JsValue;
  timeLimit : JsValue
}.

Section Orm.

(** How the database reads a value as a primary key, how it compares a
    column with a value of a [where] clause, and which calls reject:
    the controller is embedded for any mapper and database. *)
Variable pk_of : JsValue -> option Z.
Variable col_eq : JsValue -> JsValue -> bool.
Variable rejects : OrmCall -> DB -> bool.

(** No call of the mapper rejects on this database. *)
Definition answers_all (db : DB) : Prop := forall c, rejects c db = false.

Definition call {A} (c : OrmCall) (f : DB -> A * DB) : Orm A := fun db =>
  if rejects c db then (None, db)
  else let '(a, db') := f db in (Some a, db').

Definition find_chapter (key : JsValue) (db : DB) : option ChapterRow :=
  k ← pk_of key; chapters db !! k.

Definition matches (name_is chapter_is : JsValue) (r : Z * QuizRow) : bool :=
  col_eq (name r.2) name_is && col_eq (chapter_id r.2) chapter_is.

Definition find_one (name_is chapter_is : JsValue) (db : DB) : option Instance_ :=
  head (List.filter (matches name_is chapter_is) (map_to_list (quizzes db))).

Definition find_quiz (key : option Z) (db : DB) : option Instance_ :=
  k ← key; r ← quizzes db !! k; Some (k, r).

(** No quiz is stored under the identifier of the route. *)
Definition no_quiz (id : string) (db : DB) : Prop :=
  forall k, JS.parseInt id = Some k -> quizzes db !! k = None.

Definition Chapter_findByPk (key : JsValue) : Orm (option ChapterRow) :=
  call (ChapterFindByPk key) (fun db => (find_chapter key db, db)).

Definition Quiz_findOne (name_is chapter_is : JsValue) : Orm (option Instance_) :=
  call (QuizFindOne name_is chapter_is) (fun db => (find_one name_is chapter_is db, db)).

Definition Quiz_create (row : QuizRow) : Orm Instance_ :=
  call (QuizCreate row) (fun db =>
    let k := fresh (dom (quizzes db)) in
    ((k, row), {| chapters := chapters db; quizzes := <[k := row]> (quizzes db) |})).

Definition Quiz_findByPk (key : option Z) : Orm (option Instance_) :=
  call (QuizFindByPk key) (fun db => (find_quiz key db, db)).

(** [quiz.update(values)]: the row of the instance is rewritten, if it
    is still there. *)
Definition Quiz_update (q : Instance_) (row : QuizRow) : Orm Instance_ :=
  call (QuizUpdate q.1 row) (fun db =>
    ((q.1, row),
     {| chapters := chapters db;
        quizzes := match quizzes db !! q.1 with
                   | Some _ => <[q.1 := row]> (quizzes db)
                   | None => quizzes db
                   end |})).

Definition Quiz_destroy (q : Instance_) : Orm unit :=
  call (QuizDestroy q.1) (fun db =>
    (tt, {| chapters := chapters db; quizzes := delete q.1 (quizzes db) |})).

Definition createQuiz (b : Body) (now : Z) : DB -> Response * DB :=
  try_catch (
    chapter ← Chapter_findByPk (chapterId b);
    match chapter with
    | None => mret (json 404 "Chapter not found")
    | Some _ =>
        quizExists ← Quiz_findOne (title b) (chapterId b);
        match quizExists with
        | Some _ => mret (json 400 "Quiz already exists in this chapter")
        | None =>
            q ← Quiz_create {| name := title b;
                               remarks := description b;
                               chapter_id := chapterId b;
                               date_of_quiz := now;
                               time_duration := or (timeLimit b) (JStr "00:30") |};
            mret {| status := 201; message := "Quiz created successfully";
                    quiz := Some q |}
        end
    end).

(** The values handed to [quiz.update]. *)
Definition updated_row (b : Body) (old : QuizRow) : QuizRow :=
  {| name := or (title b) (name old);
     remarks := or (description b) (remarks old);
     chapter_id := or (chapterId b) (chapter_id old);
     date_of_quiz := date_of_quiz old;
     time_duration := or (timeLimit b) (time_duration old) |}.

(** [await quiz.update({...}); return res.status(200)...] *)
Definition apply_update (b : Body) (q : Instance_) : Orm Response :=
  q' ← Quiz_update q (updated_row b q.2);
  mret {| status := 200; message := "Quiz updated successfully"; quiz := Some q' |}.

Definition updateQuiz (id : string) (b : Body) : DB -> Response * DB :=
  try_catch (
    found ← Quiz_findByPk (JS.parseInt id);
    match found with
    | None => mret (json 404 "Quiz not found")
    | Some q =>
        if truthy (chapterId b) && strict_ne (chapterId b) (chapter_id q.2)
        then
          chapter ← Chapter_findByPk (chapterId b);
          match chapter with
          | None => mret (json 404 "Chapter not found")
          | Some _ => apply_update b q
          end
        else apply_update b q
    end).

Definition deleteQuiz (id : string) : DB -> Response * DB :=
  try_catch (
    found ← Quiz_findByPk (JS.parseInt id);
    match found with
    | None => mret (json 404 "Quiz not found")
    | Some q =>
        _ ← Quiz_destroy q;
        mret (json 200 "Quiz deleted successfully")
    end).

(** The three outcomes of [createQuiz] as the claim has them: 404 without
    the chapter, 400 with a quiz of the title in the chapter, and 201
    otherwise. *)
Definition missing_chapter_404 : Prop :=
  forall b now db,
    find_chapter (chapterId b) db = None -> status (createQuiz b now db).1 = 404.

Definition taken_title_400 : Prop :=
  forall b now db,
    is_Some (find_chapter (chapterId b) db) ->
    is_Some (find_one (title b) (chapterId b) db) ->
    status (createQuiz b now db).1 = 400.

Definition created_otherwise : Prop :=
  forall b now db,
    is_Some (find_chapter (chapterId b) db) ->
    find_one (title b) (chapterId b) db = None ->
    status (createQuiz b now db).1 = 201.

(** The claim that 404 'Quiz not found' is the answer exactly when no quiz
    is stored under the id, for each of the two handlers. *)
Definition update_404_iff_missing : Prop :=
  forall id b db,
    (status (updateQuiz id b db).1 = 404 /\
     message (updateQuiz id b db).1 = "Quiz not found") <-> no_quiz id db.

Definition delete_404_iff_missing : Prop :=
  forall id db,
    (status (deleteQuiz id db).1 = 404 /\
     message (deleteQuiz id db).1 = "Quiz not found") <-> no_quiz id db.

(** The claim that a new [chapterId] that names no chapter is answered
    404. *)
Definition unknown_chapter_404 : Prop :=
  forall id b db q,
    find_quiz (JS.parseInt id) db = Some q ->
    truthy (chapterId b) = true -> strict_ne (chapterId b) (chapter_id q.2) = true ->
    find_chapter (chapterId b) db = None ->
    status (updateQuiz id b db).1 = 404.

End Orm.

(** A mapper to run the controller with: keys are numbers, columns are
    compared as values, and every call is answered. *)
Definition number_key (v : JsValue) : option Z :=
  match v with
  | JNum n => Some n
  | _ => None
  end.

Definition same_value (a b : JsValue) : bool := bool_decide (a = b).

Definition never_rejects (c : OrmCall) (db : DB) : bool := false.

(** A mapper that, as Sequelize does, raises on a [where] clause with an
    [undefined] value and on a primary key that is [NaN], and answers
    every other call. *)
Definition rejects_invalid (c : OrmCall) (db : DB) : bool :=
  match c with
  | QuizFindOne JUndefined _ | QuizFindOne _ JUndefined => true
  | QuizFindByPk None => true
  | _ => false
  end.

(** The database cannot be reached, and every call is rejected: the
    server goes on serving then ([index.ts], the [catch] of the start). *)
Definition database_down (c : OrmCall) (db : DB) : bool := true.

(** A body with the stored chapter and nothing else; one with the title of
    the stored quiz; and one that names a chapter that is not stored. *)
Definition untitled_body : Body :=
  {| title := JUndefined; description := JUndefined; chapterId := JNum 1;
     timeLimit := JUndefined |}.

Definition algebra_body : Body :=
  {| title := JStr "Algebra"; description := JNull; chapterId := JNum 1;
     timeLimit := JUndefined |}.

Definition other_chapter_body : Body :=
  {| title := JStr "Sets"; description := JNull; chapterId := JNum 2;
     timeLimit := JUndefined |}.

Definition sample_row : QuizRow :=
  {| name := JStr "Algebra"; remarks := JStr "Chapter test"; chapter_id := JNum 1;
     date_of_quiz := 0; time_duration := JStr "00:45" |}.

(** A body whose four fields are all absent or falsy. *)
Definition empty_body : Body :=
  {| title := JStr ""; description := JUndefined; chapterId := JNum 0;
     timeLimit := JNull |}.

Definition sample_db : DB :=
  {| chapters := {[ 1 := {| chapter_name := JStr "Numbers" |} ]};
     quizzes := {[ 7 := sample_row ]} |}.

End QuizController.

(** ** TakeQuiz: the timed quiz flow *)

Module TakeQuiz.

(** The types [Quiz], [Question] and [Option] of [services/api] are not
    among the sources: they are given the fields the component reads. *)
Record Option_ := { o_id : Z; o_text : string }.

(** [options] is optional in the render ([currentQuestion?.options?.map]). *)
Record Question := { q_id : Z; q_text : string; q_options : option (list Option_) }.

(** [timeLimit], a JavaScript number in the source, is taken to be a whole
    number of minutes, and with it [timeLeft] a whole number of seconds: a
    limit with a fraction, or none, is not covered. *)
Record Quiz := {
  title : string;
  description : string;
  timeLimit : Z;
  passingScore : Z
}.

Record Answer := { question_id : Z; selected_option : Z }.

(** The body handed to [submitQuiz]; [quiz_id] is [None] for [NaN]. *)
Record SubmitRequest := {
  quiz_id : option Z;
  req_answers : list Answer;
  time_taken : string
}.

(** Answer objects live in a heap and arrays hold references to them:
    [handleOptionSelect] copies the array but writes through the shared
    object. *)
Definition loc : Type := nat.

(** The hooks of the component ([useState], [useRef]) and what it has done
    to the outside: the objects it allocated, the [submitQuiz] calls it
    made (latest first) and how many are unanswered, the last [navigate],
    and the [TypeError]s its handlers raised.  [timerRef] holds the running
    interval, with the [answers] array its callback closed over; times are
    milliseconds since the epoch. *)
Record State := {
  quiz : option Quiz;
  questions : list Question;
  currentQuestionIndex : Z;
  answers : list loc;
  selectedOption : option Z;
  timeLeft : Z;
  quizStarted : bool;
  quizFinished : bool;
  loading : bool;
  error : option string;
  showConfirmModal : bool;
  startTime : option Z;
  timerRef : option (list loc);
  heap : list Answer;
  submitted : list SubmitRequest;
  pending : nat;
  navigated : option string;
  typeErrors : nat
}.

Definition set_quiz (v : option Quiz) (s : State) : State :=
  {| quiz := v; questions := questions s;
     currentQuestionIndex := currentQuestionIndex s; answers := answers s;
     selectedOption := selectedOption s; timeLeft := timeLeft s;
     quizStarted := quizStarted s; quizFinished := quizFinished s;
     loading := loading s; error := error s;
     showConfirmModal := showConfirmModal s; startTime := startTime s;
     timerRef := timerRef s; heap := heap s; submitted := submitted s;
     pending := pending s; navigated := navigated s; typeErrors := typeErrors s |}.

Definition set_questions (v : list Question) (s : State) : State :=
  {| quiz := quiz s; questions := v;
     currentQuestionIndex := currentQuestionIndex s; answers := answers s;
     selectedOption := selectedOption s; timeLeft := timeLeft s;
     quizStarted := quizStarted s; quizFinished := quizFinished s;
     loading := loading s; error := error s;
     showConfirmModal := showConfirmModal s; startTime := startTime s;
     timerRef := timerRef s; heap := heap s; submitted := submitted s;
     pending := pending s; navigated := navigated s; typeErrors := typeErrors s |}.

Definition set_currentQuestionIndex (v : Z) (s : State) : State :=
  {| quiz := quiz s; questions := questions s; currentQuestionIndex := v;
     answers := answers s; selectedOption := selectedOption s;
     timeLeft := timeLeft s; quizStarted := quizStarted s;
     quizFinished := quizFinished s; loading := loading s; error := error s;
     showConfirmModal := showConfirmModal s; startTime := startTime s;
     timerRef := timerRef s; heap := heap s; submitted := submitted s;
     pending := pending s; navigated := navigated s; typeErrors := typeErrors s |}.

Definition set_answers (v : list loc) (s : State) : State :=
  {| quiz := quiz s; questions := questions s;
     currentQuestionIndex := currentQuestionIndex s; answers := v;
     selectedOption := selectedOption s; timeLeft := timeLeft s;
     quizStarted := quizStarted s; quizFinished := quizFinished s;
     loading := loading s; error := error s;
     showConfirmModal := showConfirmModal s; startTime := startTime s;
     timerRef := timerRef s; heap := heap s; submitted := submitted s;
     pending := pending s; navigated := navigated s; typeErrors := typeErrors s |}.

Definition set_selectedOption (v : option Z) (s : State) : State :=
  {| quiz := quiz s; questions := questions s;
     currentQuestionIndex := currentQuestionIndex s; answers := answers s;
     selectedOption := v; timeLeft := timeLeft s; quizStarted := quizStarted s;
     quizFinished := quizFinished s; loading := loading s; error := error s;
     showConfirmModal := showConfirmModal s; startTime := startTime s;
     timerRef := timerRef s; heap := heap s; submitted := submitted s;
     pending := pending s; navigated := navigated s; typeErrors := typeErrors s |}.

Definition set_timeLeft (v : Z) (s : State) : State :=
  {| quiz := quiz s; questions := questions s;
     currentQuestionIndex := currentQuestionIndex s; answers := answers s;
     selectedOption := selectedOption s; timeLeft := v;
     quizStarted := quizStarted s; quizFinished := quizFinished s;
     loading := loading s; error := error s;
     showConfirmModal := showConfirmModal s; startTime := startTime s;
     timerRef := timerRef s; heap := heap s; submitted := submitted s;
     pending := pending s; navigated := navigated s; typeErrors := typeErrors s |}.

Definition set_quizStarted (v : bool) (s : State) : State :=
  {| quiz := quiz s; questions := questions s;
     currentQuestionIndex := currentQuestionIndex s; answers := answers s;
     selectedOption := selectedOption s; timeLeft := timeLeft s; quizStarted := v;
     quizFinished := quizFinished s; loading := loading s; error := error s;
     showConfirmModal := showConfirmModal s; startTime := startTime s;
     timerRef := timerRef s; heap := heap s; submitted := submitted s;
     pending := pending s; navigated := navigated s; typeErrors := typeErrors s |}.

Definition set_quizFinished (v : bool) (s : State) : State :=
  {| quiz := quiz s; questions := questions s;
     currentQuestionIndex := currentQuestionIndex s; answers := answers s;
     selectedOption := selectedOption s; timeLeft := timeLeft s;
     quizStarted := quizStarted s; quizFinished := v; loading := loading s;
     error := error s; showConfirmModal := showConfirmModal s;
     startTime := startTime s; timerRef := timerRef s; heap := heap s;
     submitted := submitted s; pending := pending s; navigated := navigated s;
     typeErrors := typeErrors s |}.

Definition set_loading (v : bool) (s : State) : State :=
  {| quiz := quiz s; questions := questions s;
     currentQuestionIndex := currentQuestionIndex s; answers := answers s;
     selectedOption := selectedOption s; timeLeft := timeLeft s;
     quizStarted := quizStarted s; quizFinished := quizFinished s; loading := v;
     error := error s; showConfirmModal := showConfirmModal s;
     startTime := startTime s; timerRef := timerRef s; heap := heap s;
     submitted := submitted s; pending := pending s; navigated := navigated s;
     typeErrors := typeErrors s |}.

Definition set_error (v : option string) (s : State) : State :=
  {| quiz := quiz s; questions := questions s;
     currentQuestionIndex := currentQuestionIndex s; answers := answers s;
     selectedOption := selectedOption s; timeLeft := timeLeft s;
     quizStarted := quizStarted s; quizFinished := quizFinished s;
     loading := loading s; error := v; showConfirmModal := showConfirmModal s;
     startTime := startTime s; timerRef := timerRef s; heap := heap s;
     submitted := submitted s; pending := pending s; navigated := navigated s;
     typeErrors := typeErrors s |}.

Definition set_showConfirmModal (v : bool) (s : State) : State :=
  {| quiz := quiz s; questions := questions s;
     currentQuestionIndex := currentQuestionIndex s; answers := answers s;
     selectedOption := selectedOption s; timeLeft := timeLeft s;
     quizStarted := quizStarted s; quizFinished := quizFinished s;
     loading := loading s; error := error s; showConfirmModal := v;
     startTime := startTime s; timerRef := timerRef s; heap := heap s;
     submitted := submitted s; pending := pending s; navigated := navigated s;
     typeErrors := typeErrors s |}.

Definition set_startTime (v : option Z) (s : State) : State :=
  {| quiz := quiz s; questions := questions s;
     currentQuestionIndex := currentQuestionIndex s; answers := answers s;
     selectedOption := selectedOption s; timeLeft := timeLeft s;
     quizStarted := quizStarted s; quizFinished := quizFinished s;
     loading := loading s; error := error s;
     showConfirmModal := showConfirmModal s; startTime := v;
     timerRef := timerRef s; heap := heap s; submitted := submitted s;
     pending := pending s; navigated := navigated s; typeErrors := typeErrors s |}.

Definition set_timerRef (v : option (list loc)) (s : State) : State :=
  {| quiz := quiz s; questions := questions s;
     currentQuestionIndex := currentQuestionIndex s; answers := answers s;
     selectedOption := selectedOption s; timeLeft := timeLeft s;
     quizStarted := quizStarted s; quizFinished := quizFinished s;
     loading := loading s; error := error s;
     showConfirmModal := showConfirmModal s; startTime := startTime s;
     timerRef := v; heap := heap s; submitted := submitted s; pending := pending s;
     navigated := navigated s; typeErrors := typeErrors s |}.

Definition set_heap (v : list Answer) (s : State) : State :=
  {| quiz := quiz s; questions := questions s;
     currentQuestionIndex := currentQuestionIndex s; answers := answers s;
     selectedOption := selectedOption s; timeLeft := timeLeft s;
     quizStarted := quizStarted s; quizFinished := quizFinished s;
     loading := loading s; error := error s;
     showConfirmModal := showConfirmModal s; startTime := startTime s;
     timerRef := timerRef s; heap := v; submitted := submitted s;
     pending := pending s; navigated := navigated s; typeErrors := typeErrors s |}.

Definition set_submitted (v : list SubmitRequest) (s : State) : State :=
  {| quiz := quiz s; questions := questions s;
     currentQuestionIndex := currentQuestionIndex s; answers := answers s;
     selectedOption := selectedOption s; timeLeft := timeLeft s;
     quizStarted := quizStarted s; quizFinished := quizFinished s;
     loading := loading s; error := error s;
     showConfirmModal := showConfirmModal s; startTime := startTime s;
     timerRef := timerRef s; heap := heap s; submitted := v; pending := pending s;
     navigated := navigated s; typeErrors := typeErrors s |}.

Definition set_pending (v : nat) (s : State) : State :=
  {| quiz := quiz s; questions := questions s;
     currentQuestionIndex := currentQuestionIndex s; answers := answers s;
     selectedOption := selectedOption s; timeLeft := timeLeft s;
     quizStarted := quizStarted s; quizFinished := quizFinished s;
     loading := loading s; error := error s;
     showConfirmModal := showConfirmModal s; startTime := startTime s;
     timerRef := timerRef s; heap := heap s; submitted := submitted s;
     pending := v; navigated := navigated s; typeErrors := typeErrors s |}.

Definition set_navigated (v : option string) (s : State) : State :=
  {| quiz := quiz s; questions := questions s;
     currentQuestionIndex := currentQuestionIndex s; answers := answers s;
     selectedOption := selectedOption s; timeLeft := timeLeft s;
     quizStarted := quizStarted s; quizFinished := quizFinished s;
     loading := loading s; error := error s;
     showConfirmModal := showConfirmModal s; startTime := startTime s;
     timerRef := timerRef s; heap := heap s; submitted := submitted s;
     pending := pending s; navigated := v; typeErrors := typeErrors s |}.

Definition set_typeErrors (v : nat) (s : State) : State :=
  {| quiz := quiz s; questions := questions s;
     currentQuestionIndex := currentQuestionIndex s; answers := answers s;
     selectedOption := selectedOption s; timeLeft := timeLeft s;
     quizStarted := quizStarted s; quizFinished := quizFinished s;
     loading := loading s; error := error s;
     showConfirmModal := showConfirmModal s; startTime := startTime s;
     timerRef := timerRef s; heap := heap s; submitted := submitted s;
     pending := pending s; navigated := navigated s; typeErrors := v |}.
Definition init : State :=
  {| quiz := None; questions := []; currentQuestionIndex := 0; answers := [];
     selectedOption := None; timeLeft := 0; quizStarted := false;
     quizFinished := false; loading := true; error := None;
     showConfirmModal := false; startTime := None; timerRef := None;
     heap := []; submitted := []; pending := O; navigated := None;
     typeErrors := O |}.

(** [arr[i]] for a number [i]: [undefined] out of range. *)
Definition index {A} (arr : list A) (i : Z) : option A :=
  if i <? 0 then None else arr !! Z.to_nat i.

(** The object an array slot refers to. *)
Definition read (s : State) (arr : list loc) (i : Z) : option Answer :=
  l ← index arr i; heap s !! l.

(** The objects of an array, in order. *)
Definition deref (h : list Answer) (arr : list loc) : list Answer :=
  omap (fun l => h !! l) arr.

(** A handler that reads a property of [undefined] stops there. *)
Definition throw_TypeError (s : State) : State := set_typeErrors (S (typeErrors s)) s.

Definition clearInterval (s : State) : State := set_timerRef None s.

(** [navigate(path)] leaves the page: the component unmounts and the
    cleanups clear the interval. *)
Definition navigate (path : string) (s : State) : State :=
  set_navigated (Some path) (clearInterval s).

Definition mounted (s : State) : bool := bool_decide (navigated s = None).

(** What the two requests of [fetchQuizData] came back with. *)
Inductive FetchResult :=
| Fetched (quizData : Quiz) (questionsData : list Question)
| QuizFetchFailed
| QuestionsFetchFailed (quizData : Quiz).

Definition initialAnswers (questionsData : list Question) : list Answer :=
  map (fun question => {| question_id := q_id question; selected_option := -1 |})
      questionsData.

Definition fetch_failed (s : State) : State :=
  set_loading false (set_error (Some "Failed to load quiz. Please try again later.") s).

(** The whole of [fetchQuizData], from [setLoading(true)] to the [finally]:
    while it runs the loading page is shown and nothing else can happen. *)
Definition fetchQuizData (r : FetchResult) (s : State) : State :=
  let s := set_error None (set_loading true s) in
  match r with
  | QuizFetchFailed => fetch_failed s
  | QuestionsFetchFailed quizData =>
      fetch_failed (set_timeLeft (timeLimit quizData * 60) (set_quiz (Some quizData) s))
  | Fetched quizData questionsData =>
      let s := set_timeLeft (timeLimit quizData * 60) (set_quiz (Some quizData) s) in
      let s := set_questions questionsData s in
      let objects := initialAnswers questionsData in
      let refs := seq (length (heap s)) (length objects) in
      let s := set_answers refs (set_heap (heap s ++ objects) s) in
      set_loading false s
  end.

Definition startQuiz (now : Z) (s : State) : State :=
  set_startTime (Some now) (set_quizStarted true s).

Definition handleOptionSelect (optionId : Z) (s : State) : State :=
  let s := set_selectedOption (Some optionId) s in
  let updatedAnswers := answers s in
  match index updatedAnswers (currentQuestionIndex s) with
  | Some l =>
      match heap s !! l with
      | Some a =>
          let a' := {| question_id := question_id a; selected_option := optionId |} in
          set_answers updatedAnswers (set_heap (<[l := a']> (heap s)) s)
      | None => throw_TypeError s
      end
  | None => throw_TypeError s
  end.

(** [a.selected_option === -1 ? null : a.selected_option] *)
Definition shown_option (a : Answer) : option Z :=
  if selected_option a =? -1 then None else Some (selected_option a).

Definition goToNextQuestion (s : State) : State :=
  if currentQuestionIndex s <? Z.of_nat (length (questions s)) - 1 then
    let s1 := set_currentQuestionIndex (currentQuestionIndex s + 1) s in
    match read s (answers s) (currentQuestionIndex s + 1) with
    | Some a => set_selectedOption (shown_option a) s1
    | None => throw_TypeError s1
    end
  else set_showConfirmModal true s.

Definition goToPreviousQuestion (s : State) : State :=
  if 0 <? currentQuestionIndex s then
    let s1 := set_currentQuestionIndex (currentQuestionIndex s - 1) s in
    match read s (answers s) (currentQuestionIndex s - 1) with
    | Some a => set_selectedOption (shown_option a) s1
    | None => throw_TypeError s1
    end
  else s.

(** [Math.floor((endTime - startTime) / 1000)], or 0 without a start. *)
Definition timeTaken (start : option Z) (endTime : Z) : Z :=
  match start with
  | Some t0 => JS.floor_div (endTime - t0) 1000
  | None => 0
  end.

Definition formattedTime (t : Z) : string :=
  let hours := JS.floor_div t 3600 in
  let minutes := JS.floor_div (JS.rem t 3600) 60 in
  let seconds := JS.rem t 60 in
  JS.padStart 2 "0" (JS.toString hours) ++ ":" ++
  JS.padStart 2 "0" (JS.toString minutes) ++ ":" ++
  JS.padStart 2 "0" (JS.toString seconds).

Definition answered (a : Answer) : bool := negb (selected_option a =? -1).

(** The page's [formatTime] (MM:SS) of the remaining seconds. *)
Definition formatTime (seconds : Z) : string :=
  let mins := JS.floor_div seconds 60 in
  let secs := JS.rem seconds 60 in
  JS.padStart 2 "0" (JS.toString mins) ++ ":" ++ JS.padStart 2 "0" (JS.toString secs).

(** The spec's words for the time sent: zero-padded HH:MM:SS.  A field is
    two decimal digits; hours beyond 99 are written out in full. *)
Definition digit (d : Z) : ascii := ascii_of_nat (48 + Z.to_nat d).

Definition two_digits (n : Z) : string :=
  String (digit (n / 10)) (String (digit (n mod 10)) "").

Definition hh_mm_ss (t : Z) : string :=
  (if t / 3600 <? 100 then two_digits (t / 3600) else JS.toString (t / 3600)) ++ ":" ++
  two_digits ((t / 60) mod 60) ++ ":" ++ two_digits (t mod 60).

Section Component.

(** The [:id] parameter of the route. *)
Variable id : option string.

Definition quizId : option Z := JS.parseInt (JS.or_string id "0").

(** What [finishQuiz] hands to [submitQuiz]; [closure] is the [answers]
    array the running [finishQuiz] was created with. *)
Definition request (closure : list loc) (endTime : Z) (s : State) : SubmitRequest :=
  {| quiz_id := quizId;
     req_answers := List.filter answered (deref (heap s) closure);
     time_taken := formattedTime (timeTaken (startTime s) endTime) |}.

(** [finishQuiz] up to its [await]: the request is sent. *)
Definition finishQuiz (closure : list loc) (endTime : Z) (s : State) : State :=
  let s := clearInterval (set_quizFinished true s) in
  set_pending (S (pending s)) (set_submitted (request closure endTime s :: submitted s) s).

(** [finishQuiz] after the [await], when the request resolved. *)
Definition submit_resolved (scoreId : Z) (s : State) : State :=
  navigate ("/results/" ++ JS.toString scoreId) (set_pending (Nat.pred (pending s)) s).

(** [finishQuiz] after the [await], in its [catch].  The setters are
    recorded also when the page was left meanwhile; nothing is rendered
    from the state then, and no interval is set. *)
Definition submit_rejected (s : State) : State :=
  set_quizFinished false
    (set_error (Some "Failed to submit quiz. Please try again.")
       (set_pending (Nat.pred (pending s)) s)).

(** One firing of the interval: the updater of [setTimeLeft]. *)
Definition tick (now : Z) (s : State) : State :=
  match timerRef s with
  | None => s
  | Some closure =>
      if timeLeft s <=? 1
      then set_timeLeft 0 (finishQuiz closure now (clearInterval s))
      else set_timeLeft (timeLeft s - 1) s
  end.

(** What the user and the environment can do to the mounted component. *)
Inductive Event :=
| FetchDone (r : FetchResult)
| ClickStart (now : Z)
| ClickBack
| ClickOption (optionId : Z)
| ClickNext
| ClickPrevious
| HideModal
| ClickFinish (now : Z)
| Tick (now : Z)
| SubmitResolved (scoreId : Z)
| SubmitRejected.

Definition handle (e : Event) (s : State) : State :=
  match e with
  | FetchDone r => fetchQuizData r s
  | ClickStart now => startQuiz now s
  | ClickBack => navigate "/quizzes" s
  | ClickOption optionId => handleOptionSelect optionId s
  | ClickNext => goToNextQuestion s
  | ClickPrevious => goToPreviousQuestion s
  | HideModal => set_showConfirmModal false s
  | ClickFinish now => finishQuiz (answers s) now s
  | Tick now => tick now s
  | SubmitResolved scoreId => submit_resolved scoreId s
  | SubmitRejected => submit_rejected s
  end.

(** The timer effect, run after the render that follows a handler: when
    [quizStarted] or [quizFinished] changed, the old interval is cleared
    and a new one is set if the quiz is started and not finished. Its
    callback closes over the [finishQuiz], and so the [answers], of that
    render. *)
Definition timer_effect (old new : State) : State :=
  if negb (mounted new) then clearInterval new
  else if bool_decide (quizStarted old = quizStarted new)
          && bool_decide (quizFinished old = quizFinished new) then new
  else if quizStarted new && negb (quizFinished new)
       then set_timerRef (Some (answers new)) new
       else clearInterval new.

Definition step (e : Event) (s : State) : State := timer_effect s (handle e s).

(** [if (error)]: a message that is set and not empty. *)
Definition truthy_error (e : option string) : bool :=
  match e with
  | Some (String _ _) => true
  | _ => false
  end.

(** Which page the render returns. *)
Inductive View := LoadingPage | ErrorPage | InstructionsPage | QuestionPage.

Definition view (s : State) : View :=
  if loading s then LoadingPage
  else if truthy_error (error s) then ErrorPage
  else if negb (quizStarted s) then InstructionsPage
  else QuestionPage.

Definition on_page (v : View) (s : State) : bool :=
  match v, view s with
  | LoadingPage, LoadingPage | ErrorPage, ErrorPage
  | InstructionsPage, InstructionsPage | QuestionPage, QuestionPage => true
  | _, _ => false
  end.

(** The radio buttons of the current question. *)
Definition offered (optionId : Z) (s : State) : bool :=
  match index (questions s) (currentQuestionIndex s) with
  | Some q =>
      match q_options q with
      | Some os => bool_decide (optionId ∈ map o_id os)
      | None => false
      end
  | None => false
  end.

(** An event can happen when the control that raises it is rendered (and
    not disabled) or the interval is running, on the mounted page; a
    request that is unanswered can be answered also after the page was
    left: the [finishQuiz] that awaits it goes on. *)
Definition enabled (e : Event) (s : State) : bool :=
  match e with
  | FetchDone _ => mounted s && loading s
  | ClickStart _ => mounted s && on_page InstructionsPage s
  | ClickBack => mounted s && (on_page ErrorPage s || on_page InstructionsPage s)
  | ClickOption optionId => mounted s && (on_page QuestionPage s && offered optionId s)
  | ClickNext => mounted s && on_page QuestionPage s
  | ClickPrevious =>
      mounted s && (on_page QuestionPage s && negb (currentQuestionIndex s =? 0))
  | HideModal | ClickFinish _ => mounted s && (on_page QuestionPage s && showConfirmModal s)
  | Tick _ => mounted s && bool_decide (is_Some (timerRef s))
  | SubmitResolved _ | SubmitRejected => bool_decide (0 < pending s)%nat
  end.

Inductive reachable : State -> Prop :=
| reachable_init : reachable init
| reachable_step s e : reachable s -> enabled e s = true -> reachable (step e s).

(** Running a script of events; an event that cannot happen is skipped. *)
Definition run (es : list Event) (s : State) : State :=
  fold_left (fun s e => if enabled e s then step e s else s) es s.

Inductive Phase := NotStarted | InProgress | Finished.

Definition phase (s : State) : Phase :=
  if quizFinished s then Finished
  else if quizStarted s then InProgress
  else NotStarted.

(** What holds in every state the component can reach. *)
Record Inv (s : State) : Prop := {
  inv_timer : forall c, timerRef s = Some c ->
    c = answers s /\ quizStarted s = true /\ quizFinished s = false /\ navigated s = None;
  inv_loading : loading s = true -> s = init;
  inv_answers : answers s = seq 0 (length (heap s));
  inv_heap : length (heap s) = length (questions s);
  inv_index : 0 <= currentQuestionIndex s /\
    (currentQuestionIndex s < Z.of_nat (length (questions s)) \/ currentQuestionIndex s = 0);
  inv_errors : typeErrors s = O;
  inv_start : quizStarted s = true -> is_Some (startTime s);
  inv_phase : quizStarted s = false -> quizFinished s = false /\ pending s = O
}.

(** The events that only move within the question page. *)
Definition browsing (e : Event) : bool :=
  match e with
  | ClickOption _ | ClickNext | ClickPrevious | HideModal => true
  | _ => false
  end.

(** The claim that nothing leaves the finished state. *)
Definition finished_is_final : Prop :=
  forall s e, reachable s -> enabled e s = true ->
    phase s = Finished -> phase (step e s) = Finished.



(** The claim that every request carries the elapsed seconds as a
    zero-padded HH:MM:SS. *)
Definition elapsed_sent_as_hh_mm_ss : Prop :=
  forall s endTime, reachable s -> enabled (ClickFinish endTime) s = true ->
    exists r,
      head (submitted (step (ClickFinish endTime) s)) = Some r /\
      time_taken r = hh_mm_ss (match startTime s with
                               | Some t0 => (endTime - t0) / 1000
                               | None => 0
                               end).

End Component.

(** A one-minute quiz of one question, to run the component on. *)
Definition sample_quiz : Quiz :=
  {| title := "Fractions"; description := "One question"; timeLimit := 1;
     passingScore := 50 |}.

Definition sample_questions : list Question :=
  [ {| q_id := 11; q_text := "1/2 + 1/4";
       q_options := Some [ {| o_id := 101; o_text := "3/4" |};
                           {| o_id := 102; o_text := "2/6" |} ] |} ].

(** The quiz is loaded and started at time 0. *)
Definition started : list Event :=
  [ FetchDone (Fetched sample_quiz sample_questions); ClickStart 0 ].

(** The user answers, asks to finish and confirms after five seconds. *)
Definition finished_by_button : list Event :=
  started ++ [ ClickOption 101; ClickNext; ClickFinish 5000 ].




(** The quiz is started when the clock reads 5 s and the user asks to
    finish; the clock is then set back, and reads 4.5 s at the
    confirmation. *)
Definition before_the_clock_is_set_back : list Event :=
  [ FetchDone (Fetched sample_quiz sample_questions); ClickStart 5000; ClickNext ].

End TakeQuiz.

(** ** Decimal numerals *)

Module Numerals.

(** The value of a decimal numeral read after [acc], digit by digit. *)
Fixpoint uint_value (acc : Z) (d : Decimal.uint) : Z :=
  match d with
  | Decimal.Nil => acc
  | Decimal.D0 l => uint_value (acc * 10 + 0) l
  | Decimal.D1 l => uint_value (acc * 10 + 1) l
  | Decimal.D2 l => uint_value (acc * 10 + 2) l
  | Decimal.D3 l => uint_value (acc * 10 + 3) l
  | Decimal.D4 l => uint_value (acc * 10 + 4) l
  | Decimal.D5 l => uint_value (acc * 10 + 5) l
  | Decimal.D6 l => uint_value (acc * 10 + 6) l
  | Decimal.D7 l => uint_value (acc * 10 + 7) l
  | Decimal.D8 l => uint_value (acc * 10 + 8) l
  | Decimal.D9 l => uint_value (acc * 10 + 9) l
  end.

End Numerals.

(** ** App: which routes ask for a session *)

Module Routes.
Import App.

(** The route's element is wrapped in [PrivateRoute] or [AdminRoute]. *)
Definition guarded (r : Route) : bool :=
  match guard r with
  | PrivateRoute | AdminRoute => true
  | _ => false
  end.

End Routes.

(** ** The quiz controller: the read handlers and what the table keeps *)

Module QuizReads.
Import QuizController.

(** The mapper calls of the read handlers. *)
Inductive ReadCall :=
| QuizFindAll
| QuizFindAllWhere (chapter_is : option Z)
| QuizFindByPkInclude (key : option Z).

(** A quiz with its [chapter] association: [null] when none is joined. *)
Record Joined (C : Type) := {
  joined_quiz : Instance_;
  joined_chapter : option (Z * C)
}.
Arguments joined_quiz {C} _.
Arguments joined_chapter {C} _.

(** What a read handler answers: a list of quizzes, one quiz with its
    chapter and questions, or a message. *)
Inductive ReadResponse (Q : Type) :=
| QuizList (st : Z) (rows : list (Joined JsValue))
| QuizPlain (st : Z) (rows : list Instance_)
| QuizDetail (st : Z) (row : Joined ChapterRow) (questions : list Q)
| ReadMessage (st : Z) (msg : string).
Arguments QuizList {Q} _ _.
Arguments QuizPlain {Q} _ _.
Arguments QuizDetail {Q} _ _ _.
Arguments ReadMessage {Q} _ _.

Definition read_status {Q} (r : ReadResponse Q) : Z :=
  match r with
  | QuizList st _ | QuizPlain st _ | QuizDetail st _ _ | ReadMessage st _ => st
  end.

Section Reads.

(** As for the writing handlers the mapper is a parameter: how a value is
    read as a key, how a column compares with the number of a [where]
    clause ([None] is [NaN]), and which calls reject.  The questions table
    is not among the tables above: the [questions] association of a quiz
    is a parameter too. *)
Variable pk_of : JsValue -> option Z.
Variable where_number : JsValue -> option Z -> bool.
Variable rejects_read : ReadCall -> DB -> bool.
Variable Q : Type.
Variable questions_of : Z -> list Q.

(** The chapter a quiz row is joined with. *)
Definition chapter_of (r : QuizRow) (db : DB) : option (Z * ChapterRow) :=
  k ← pk_of (chapter_id r); c ← chapters db !! k; Some (k, c).

(** [attributes: ['id', 'name']] *)
Definition id_and_name (c : Z * ChapterRow) : Z * JsValue := (c.1, chapter_name c.2).

Definition getAllQuizzes (db : DB) : ReadResponse Q :=
  if rejects_read QuizFindAll db then ReadMessage 500 "Internal server error"
  else QuizList 200
         (map (fun q => {| joined_quiz := q;
                           joined_chapter := id_and_name <$> chapter_of q.2 db |})
              (map_to_list (quizzes db))).

Definition getQuizzesByChapter (chapterId : string) (db : DB) : ReadResponse Q :=
  let chapter_is := JS.parseInt chapterId in
  if rejects_read (QuizFindAllWhere chapter_is) db
  then ReadMessage 500 "Internal server error"
  else QuizPlain 200
         (List.filter (fun q => where_number (chapter_id q.2) chapter_is)
                      (map_to_list (quizzes db))).

Definition getQuizById (id : string) (db : DB) : ReadResponse Q :=
  let key := JS.parseInt id in
  if rejects_read (QuizFindByPkInclude key) db
  then ReadMessage 500 "Internal server error"
  else match find_quiz key db with
       | None => ReadMessage 404 "Quiz not found"
       | Some q =>
           QuizDetail 200 {| joined_quiz := q; joined_chapter := chapter_of q.2 db |}
                      (questions_of q.1)
       end.

End Reads.

Section Kept.

Variable pk_of : JsValue -> option Z.
Variable col_eq : JsValue -> JsValue -> bool.

(** Every stored quiz names a stored chapter. *)
Definition chapter_integrity (db : DB) : Prop :=
  forall k r, quizzes db !! k = Some r -> is_Some (find_chapter pk_of (chapter_id r) db).

(** No two stored quizzes have the same title in the same chapter, as the
    [where] clause of [createQuiz] compares them. *)
Definition unique_titles (db : DB) : Prop :=
  forall k1 k2 r1 r2, k1 <> k2 ->
    quizzes db !! k1 = Some r1 -> quizzes db !! k2 = Some r2 ->
    matches col_eq (name r2) (chapter_id r2) (k1, r1) = false.

End Kept.

(** A mapper to run the read handlers with: a column matches the number
    it holds, every call is answered, and no quiz has questions. *)
Definition number_matches (v : JsValue) (n : option Z) : bool :=
  match n with
  | Some k => bool_decide (v = JNum k)
  | None => false
  end.

Definition never_rejects_read (c : ReadCall) (db : DB) : bool := false.

Definition no_questions (k : Z) : list unit := [].

(** Two quizzes of one chapter, and a request that renames a quiz. *)
Definition two_quizzes : DB :=
  {| chapters := {[ 1 := {| chapter_name := JStr "Numbers" |} ]};
     quizzes := {[ 7 := sample_row;
                   8 := {| name := JStr "Geometry"; remarks := JNull; chapter_id := JNum 1;
                           date_of_quiz := 0; time_duration := JStr "00:30" |} ]} |}.

Definition rename_to_sets : Body :=
  {| title := JStr "Sets"; description := JUndefined; chapterId := JUndefined;
     timeLimit := JUndefined |}.

End QuizReads.

(** ** TakeQuiz: what the page shows, and more of what it keeps *)

Module TakeQuizView.
Import TakeQuiz.

(** The answers the [answers] array holds now. *)
Definition current_answers (s : State) : list Answer := deref (heap s) (answers s).

(** [answers.filter(a => a.selected_option !== -1).length] *)
Definition answeredCount (s : State) : nat :=
  length (List.filter (fun a => negb (selected_option a =? -1)) (current_answers s)).

(** [answers.filter(a => a.selected_option === -1).length] *)
Definition unansweredCount (s : State) : nat :=
  length (List.filter (fun a => selected_option a =? -1) (current_answers s)).

(** The warning of the modal is rendered. *)
Definition warns (s : State) : bool := (0 <? unansweredCount s)%nat.

(** Ticks at the given clock readings. *)
Definition ticks (times : list Z) : list Event := map Tick times.

(** [s] comes from [s0] by events that can happen. *)
Inductive follows (id : option string) (s0 : State) : State -> Prop :=
| follows_here : follows id s0 s0
| follows_step s e :
    follows id s0 s -> enabled e s = true -> follows id s0 (step id e s).

(** What a request may hold for the questions of the page. *)
Definition about_the_quiz (qz : option Z) (qs : list Question) (r : SubmitRequest) : Prop :=
  quiz_id r = qz /\
  Forall (fun a => question_id a ∈ map q_id qs /\ selected_option a <> -1) (req_answers r).

Record Inv2 (id : option string) (s : State) : Prop := {
  inv_running : navigated s = None -> quizStarted s = true -> quizFinished s = false ->
    timerRef s = Some (answers s);
  inv_ids : map question_id (heap s) = map q_id (questions s);
  inv_loaded : loading s = false -> truthy_error (error s) = false -> is_Some (quiz s);
  inv_started : quizStarted s = true -> is_Some (quiz s);
  inv_limit : forall q, quiz s = Some q -> 0 <= timeLimit q ->
    timeLeft s <= timeLimit q * 60;
  inv_shown : forall a, read s (answers s) (currentQuestionIndex s) = Some a ->
    selectedOption s = shown_option a \/ selectedOption s = Some (-1);
  inv_requests : Forall (about_the_quiz (quizId id) (questions s)) (submitted s);
  inv_pending : (pending s <= length (submitted s))%nat
}.

End TakeQuizView.

(** * Properties *)

Module JSFacts.

Example parseInt_12 : JS.parseInt " 12px" = Some 12.
Proof. reflexivity. Qed.
Example parseInt_nan : JS.parseInt "abc" = None.
Proof. reflexivity. Qed.
Example parseInt_hex : JS.parseInt "-0x1f" = Some (-31).
Proof. reflexivity. Qed.
(** U+00A0, then 7. *)
Example parseInt_nbsp :
  JS.parseInt (String (ascii_of_nat 194) (String (ascii_of_nat 160) "7")) = Some 7.
Proof. reflexivity. Qed.
(** U+FEFF and U+2028, then 12. *)
Example parseInt_wide :
  JS.parseInt (String (ascii_of_nat 239) (String (ascii_of_nat 187) (String (ascii_of_nat 191)
                (String (ascii_of_nat 226) (String (ascii_of_nat 128)
                   (String (ascii_of_nat 168) "12")))))) = Some 12.
Proof. reflexivity. Qed.
Example pad_7 : JS.padStart 2 "0" (JS.toString 7) = "07".
Proof. reflexivity. Qed.
Example pad_neg : JS.padStart 2 "0" (JS.toString (-1)) = "-1".
Proof. reflexivity. Qed.
Example pad_123 : JS.padStart 2 "0" (JS.toString 123) = "123".
Proof. reflexivity. Qed.

End JSFacts.

Module AuthFacts.
Import AuthContext.

Lemma isAdmin_true (s : AuthState) :
  isAdmin s = true <-> exists u, user s = Some u /\ role u = "admin".
Proof.
  unfold isAdmin. destruct (user s) as [u|].
  - rewrite bool_decide_eq_true. split.
    + intros H. exists u. auto.
    + intros (u' & Hu & Hr). congruence.
  - split; [discriminate | intros (u & Hu & _); discriminate].
Qed.

Lemma admin_routes_guarded :
  Forall (fun r => App.under_admin r = true -> App.guard r = App.AdminRoute) App.routes.
Proof.
  unfold App.routes. repeat constructor; simpl; try discriminate.
Qed.

(** C5. [isAdmin()] is true exactly when a user is logged in and that
    user's role is ['admin'], so it is false without a user; and each of
    the six routes of the table whose path starts with [/admin] has the
    [AdminRoute] guard. *)
Theorem admin_pages_gated :
  (forall s, isAdmin s = true <-> exists u, user s = Some u /\ role u = "admin") /\
  (forall s, user s = None -> isAdmin s = false) /\
  Forall (fun r => App.under_admin r = true -> App.guard r = App.AdminRoute) App.routes /\
  length (List.filter App.under_admin App.routes) = 6%nat.
Proof.
  split; [exact isAdmin_true |].
  split; [intros s Hs; unfold isAdmin; by rewrite Hs |].
  split; [exact admin_routes_guarded | reflexivity].
Qed.

(** C6. A successful login stores the token the server returned under
    the [localStorage] key ['token'], sets the token and the user and
    returns the user; logout, from any state, removes that key and sets
    token and user to null, and [isAdmin()] is false afterwards. *)
Theorem session_token_stored (s : AuthState) (newToken : string) (userData : User) :
  let r := login (LoginOk newToken userData) s in
  (localStorage r.1 !! "token" = Some newToken /\
   token r.1 = Some newToken /\ user r.1 = Some userData /\ r.2 = Some userData) /\
  (localStorage (logout r.1) !! "token" = None /\
   token (logout r.1) = None /\ user (logout r.1) = None /\
   isAdmin (logout r.1) = false) /\
  (localStorage (logout s) !! "token" = None /\
   token (logout s) = None /\ user (logout s) = None /\ isAdmin (logout s) = false).
Proof.
  simpl. rewrite lookup_insert_eq, !lookup_delete_eq. repeat split.
Qed.

End AuthFacts.

Module QuizControllerFacts.
Import QuizController.

Section Handlers.

Variable pk_of : JsValue -> option Z.
Variable col_eq : JsValue -> JsValue -> bool.
Variable rejects : OrmCall -> DB -> bool.

Abbreviation createQuiz := (createQuiz pk_of col_eq rejects).
Abbreviation updateQuiz := (updateQuiz pk_of rejects).
Abbreviation deleteQuiz := (deleteQuiz rejects).

Ltac run_orm :=
  unfold try_catch, apply_update, Chapter_findByPk, Quiz_findOne, Quiz_create,
    Quiz_findByPk, Quiz_update, Quiz_destroy, call, mbind, mret, Orm_bind, Orm_ret;
  simpl.

Lemma or_falsy (a b : JsValue) : truthy a = false -> or a b = b.
Proof. unfold or. by intros ->. Qed.

Lemma or_result (a b : JsValue) : truthy (or a b) = false -> or a b = b.
Proof. unfold or. destruct (truthy a) eqn:E; [congruence | done]. Qed.

Lemma find_one_None (t c : JsValue) (db : DB) :
  find_one col_eq t c db = None <->
  forall k r, quizzes db !! k = Some r -> matches col_eq t c (k, r) = false.
Proof.
  unfold find_one. rewrite head_None. split.
  - intros H k r Hk. apply elem_of_map_to_list in Hk.
    destruct (matches col_eq t c (k, r)) eqn:E; [|done].
    assert (Hin : In (k, r) (List.filter (matches col_eq t c) (map_to_list (quizzes db)))).
    { apply filter_In. split; [by apply list_elem_of_In | done]. }
    rewrite H in Hin. destruct Hin.
  - intros H.
    destruct (List.filter (matches col_eq t c) (map_to_list (quizzes db)))
      as [|[k r] l] eqn:E; [done|].
    assert (Hin : In (k, r) (List.filter (matches col_eq t c) (map_to_list (quizzes db)))).
    { rewrite E. by left. }
    apply filter_In in Hin as [Hin Hm].
    apply list_elem_of_In, elem_of_map_to_list in Hin.
    specialize (H k r Hin). congruence.
Qed.

Lemma createQuiz_error_frame (b : Body) (now : Z) (db : DB) :
  status (createQuiz b now db).1 <> 201 -> (createQuiz b now db).2 = db.
Proof.
  unfold QuizController.createQuiz. run_orm.
  destruct (rejects (ChapterFindByPk (chapterId b)) db); [done|].
  destruct (find_chapter pk_of (chapterId b) db); [|done].
  destruct (rejects (QuizFindOne (title b) (chapterId b)) db); [done|].
  destruct (find_one col_eq (title b) (chapterId b) db); [done|].
  match goal with |- context [rejects ?c db] => destruct (rejects c db) end; [done|].
  simpl. congruence.
Qed.

Ltac settle :=
  intros;
  repeat match goal with
         | H : _ \/ _ |- _ => destruct H
         | H : _ /\ _ |- _ => destruct H
         end;
  first [done | contradiction | congruence].

(** C4, as the code has it. [createQuiz] makes up to three calls of the
    mapper: the lookup of the chapter, the lookup of a quiz with the title
    in the chapter, and the insertion.  When the first resolves with no
    chapter the answer is 404; when the chapter is stored and the second
    resolves with a quiz of that title in that chapter, 400; when the
    chapter is stored, no such quiz is and the three calls resolve, 201,
    and the table gains exactly one row under a fresh key, holding the
    request's values with [time_duration] the given [timeLimit] or
    ['00:30'] (30 minutes) when it is absent.  The answer is 500 exactly
    when a call that is made is rejected.  Whenever the status is not 201
    the database is unchanged. *)
Theorem createQuiz_outcomes (b : Body) (now : Z) (db : DB) :
  let res := (createQuiz b now db).1 in
  let db' := (createQuiz b now db).2 in
  let row := {| name := title b; remarks := description b; chapter_id := chapterId b;
                date_of_quiz := now;
                time_duration := or (timeLimit b) (JStr "00:30") |} in
  let chapter_stored := is_Some (find_chapter pk_of (chapterId b) db) in
  let title_taken := exists k r, quizzes db !! k = Some r /\
                                 matches col_eq (title b) (chapterId b) (k, r) = true in
  let title_free := forall k r, quizzes db !! k = Some r ->
                                matches col_eq (title b) (chapterId b) (k, r) = false in
  (rejects (ChapterFindByPk (chapterId b)) db = false ->
   find_chapter pk_of (chapterId b) db = None ->
     status res = 404 /\ message res = "Chapter not found" /\ db' = db) /\
  (rejects (ChapterFindByPk (chapterId b)) db = false ->
   rejects (QuizFindOne (title b) (chapterId b)) db = false ->
   chapter_stored -> title_taken ->
     status res = 400 /\ message res = "Quiz already exists in this chapter" /\ db' = db) /\
  (rejects (ChapterFindByPk (chapterId b)) db = false ->
   rejects (QuizFindOne (title b) (chapterId b)) db = false ->
   rejects (QuizCreate row) db = false ->
   chapter_stored -> title_free ->
     exists k,
       status res = 201 /\ quiz res = Some (k, row) /\
       quizzes db !! k = None /\
       quizzes db' = <[k := row]> (quizzes db) /\ chapters db' = chapters db /\
       (timeLimit b = JUndefined -> time_duration row = JStr "00:30")) /\
  (status res = 500 <->
     rejects (ChapterFindByPk (chapterId b)) db = true \/
     (chapter_stored /\ rejects (QuizFindOne (title b) (chapterId b)) db = true) \/
     (chapter_stored /\ title_free /\ rejects (QuizCreate row) db = true)) /\
  (status res = 500 -> message res = "Internal server error") /\
  (status res <> 201 -> db' = db).
Proof.
  intros res db' row chapter_stored title_taken title_free.
  pose proof (createQuiz_error_frame b now db) as Hframe.
  pose proof (find_one_None (title b) (chapterId b) db) as Hfree.
  subst res db' chapter_stored title_taken title_free. revert Hframe.
  unfold QuizController.createQuiz. run_orm. fold row.
  assert (Hnone : ~ is_Some (@None ChapterRow)) by (by intros [? ?]).
  destruct (rejects (ChapterFindByPk (chapterId b)) db) eqn:R1; simpl.
  { intros _. repeat split; try done; auto. }
  destruct (find_chapter pk_of (chapterId b) db) as [ch|] eqn:Hc; simpl.
  { destruct (rejects (QuizFindOne (title b) (chapterId b)) db) eqn:R2; simpl.
    { intros _. repeat split; try done. intros _. right. left. by split. }
    destruct (find_one col_eq (title b) (chapterId b) db) as [q|] eqn:Hq; simpl.
    { assert (Hno : ~ forall k r, quizzes db !! k = Some r ->
                        matches col_eq (title b) (chapterId b) (k, r) = false).
      { intros H. apply Hfree in H. congruence. }
      intros _. repeat split; try done; settle. }
    assert (Hyes : forall k r, quizzes db !! k = Some r ->
                     matches col_eq (title b) (chapterId b) (k, r) = false).
    { by apply Hfree. }
    assert (Hnot : ~ exists k r, quizzes db !! k = Some r /\
                       matches col_eq (title b) (chapterId b) (k, r) = true).
    { intros (k & r & Hk & Hm). rewrite (Hyes k r Hk) in Hm. done. }
    destruct (rejects (QuizCreate row) db) eqn:R3; simpl.
    { intros _. repeat split; try done. intros _. right. right. done. }
    intros Hframe. repeat split; try done; try settle.
    intros _ _ _ _ _. eexists. repeat split.
    + apply not_elem_of_dom. apply is_fresh.
    + subst row. simpl. by intros ->. }
  intros _. repeat split; try done; settle.
Qed.

Lemma updateQuiz_not_found (id : string) (b : Body) (db : DB) :
  rejects (QuizFindByPk (JS.parseInt id)) db = false ->
  find_quiz (JS.parseInt id) db = None ->
  updateQuiz id b db = (json 404 "Quiz not found", db).
Proof.
  intros Hr Hq. unfold QuizController.updateQuiz. run_orm. by rewrite Hr, Hq.
Qed.

Lemma deleteQuiz_not_found (id : string) (db : DB) :
  rejects (QuizFindByPk (JS.parseInt id)) db = false ->
  find_quiz (JS.parseInt id) db = None ->
  deleteQuiz id db = (json 404 "Quiz not found", db).
Proof.
  intros Hr Hq. unfold QuizController.deleteQuiz. run_orm. by rewrite Hr, Hq.
Qed.

Lemma updateQuiz_found_message (id : string) (b : Body) (db : DB) (q : Instance_) :
  find_quiz (JS.parseInt id) db = Some q ->
  message (updateQuiz id b db).1 <> "Quiz not found".
Proof.
  intros Hq. unfold QuizController.updateQuiz. run_orm.
  destruct (rejects (QuizFindByPk (JS.parseInt id)) db); [done|]. rewrite Hq.
  destruct (truthy (chapterId b) && strict_ne (chapterId b) (chapter_id q.2)); run_orm.
  - destruct (rejects (ChapterFindByPk (chapterId b)) db); [done|].
    destruct (find_chapter pk_of (chapterId b) db); [|done]. run_orm.
    match goal with |- context [rejects ?c db] => destruct (rejects c db) end; done.
  - match goal with |- context [rejects ?c db] => destruct (rejects c db) end; done.
Qed.

Lemma deleteQuiz_found_message (id : string) (db : DB) (q : Instance_) :
  find_quiz (JS.parseInt id) db = Some q ->
  message (deleteQuiz id db).1 <> "Quiz not found".
Proof.
  intros Hq. unfold QuizController.deleteQuiz. run_orm.
  destruct (rejects (QuizFindByPk (JS.parseInt id)) db); [done|]. rewrite Hq.
  match goal with |- context [rejects ?c db] => destruct (rejects c db) end; done.
Qed.

Lemma updateQuiz_unknown_chapter (id : string) (b : Body) (db : DB) (q : Instance_) :
  rejects (QuizFindByPk (JS.parseInt id)) db = false ->
  rejects (ChapterFindByPk (chapterId b)) db = false ->
  find_quiz (JS.parseInt id) db = Some q ->
  truthy (chapterId b) = true -> strict_ne (chapterId b) (chapter_id q.2) = true ->
  find_chapter pk_of (chapterId b) db = None ->
  updateQuiz id b db = (json 404 "Chapter not found", db).
Proof.
  intros Hr Hr' Hq Ht Hne Hc. unfold QuizController.updateQuiz. run_orm.
  rewrite Hr, Hq, Ht, Hne. run_orm. by rewrite Hr', Hc.
Qed.

Lemma updateQuiz_lookup_rejected (id : string) (b : Body) (db : DB) :
  rejects (QuizFindByPk (JS.parseInt id)) db = true ->
  updateQuiz id b db = (json 500 "Internal server error", db).
Proof.
  intros Hr. unfold QuizController.updateQuiz. run_orm. by rewrite Hr.
Qed.

Lemma deleteQuiz_lookup_rejected (id : string) (db : DB) :
  rejects (QuizFindByPk (JS.parseInt id)) db = true ->
  deleteQuiz id db = (json 500 "Internal server error", db).
Proof.
  intros Hr. unfold QuizController.deleteQuiz. run_orm. by rewrite Hr.
Qed.

Lemma find_quiz_None (id : string) (db : DB) :
  find_quiz (JS.parseInt id) db = None <-> no_quiz id db.
Proof.
  unfold find_quiz, no_quiz. destruct (JS.parseInt id) as [k|]; simpl.
  - destruct (quizzes db !! k) eqn:E; simpl.
    + split; [done | intros H; specialize (H k eq_refl); congruence].
    + split; [intros _ k' [= <-]; done | done].
  - split; [intros _ k' [=] | done].
Qed.

(** C7, as the code has it. [updateQuiz] and [deleteQuiz] each return 404
    with the message 'Quiz not found' exactly when the lookup of the quiz
    resolves and no quiz is stored under the given id, and then the
    database is unchanged; when the lookup is rejected they return 500, and
    the database is unchanged as well; and [updateQuiz] on a stored quiz
    returns 404 and an unchanged database when the request's [chapterId] is
    set, differs from the quiz's chapter and its lookup resolves with no
    chapter. *)
Theorem missing_quiz_not_found (id : string) (b : Body) (db : DB) :
  let looked_up := rejects (QuizFindByPk (JS.parseInt id)) db = false in
  ((status (updateQuiz id b db).1 = 404 /\
    message (updateQuiz id b db).1 = "Quiz not found") <->
   (looked_up /\ no_quiz id db)) /\
  ((status (deleteQuiz id db).1 = 404 /\
    message (deleteQuiz id db).1 = "Quiz not found") <->
   (looked_up /\ no_quiz id db)) /\
  (looked_up -> no_quiz id db ->
     (updateQuiz id b db).2 = db /\ (deleteQuiz id db).2 = db) /\
  (rejects (QuizFindByPk (JS.parseInt id)) db = true ->
     updateQuiz id b db = (json 500 "Internal server error", db) /\
     deleteQuiz id db = (json 500 "Internal server error", db)) /\
  (forall q,
     looked_up -> rejects (ChapterFindByPk (chapterId b)) db = false ->
     find_quiz (JS.parseInt id) db = Some q ->
     truthy (chapterId b) = true -> strict_ne (chapterId b) (chapter_id q.2) = true ->
     find_chapter pk_of (chapterId b) db = None ->
     status (updateQuiz id b db).1 = 404 /\
     message (updateQuiz id b db).1 = "Chapter not found" /\
     (updateQuiz id b db).2 = db).
Proof.
  intros looked_up. subst looked_up. rewrite <- find_quiz_None.
  split; [|split; [|split; [|split]]].
  - split.
    + intros [Hs Hm].
      destruct (rejects (QuizFindByPk (JS.parseInt id)) db) eqn:Hr.
      { by rewrite updateQuiz_lookup_rejected in Hs. }
      split; [done|].
      destruct (find_quiz (JS.parseInt id) db) as [q|] eqn:E; [|done].
      by destruct (updateQuiz_found_message id b db q E).
    + intros [Hr Hq]. by rewrite updateQuiz_not_found.
  - split.
    + intros [Hs Hm].
      destruct (rejects (QuizFindByPk (JS.parseInt id)) db) eqn:Hr.
      { by rewrite deleteQuiz_lookup_rejected in Hs. }
      split; [done|].
      destruct (find_quiz (JS.parseInt id) db) as [q|] eqn:E; [|done].
      by destruct (deleteQuiz_found_message id db q E).
    + intros [Hr Hq]. by rewrite deleteQuiz_not_found.
  - intros Hr Hq. by rewrite updateQuiz_not_found, deleteQuiz_not_found.
  - intros Hr. by rewrite updateQuiz_lookup_rejected, deleteQuiz_lookup_rejected.
  - intros q Hr Hr' Hq Ht Hne Hc. by rewrite (updateQuiz_unknown_chapter id b db q).
Qed.

Lemma updateQuiz_database (id : string) (b : Body) (db : DB) (k : Z) (old : QuizRow) :
  JS.parseInt id = Some k -> quizzes db !! k = Some old ->
  (updateQuiz id b db).2 = db \/
  (updateQuiz id b db).2 =
    {| chapters := chapters db; quizzes := <[k := updated_row b old]> (quizzes db) |}.
Proof.
  intros Hid Hk. unfold QuizController.updateQuiz. run_orm.
  destruct (rejects (QuizFindByPk (JS.parseInt id)) db); [by left|].
  unfold find_quiz. rewrite Hid. simpl. rewrite Hk. simpl.
  destruct (truthy (chapterId b) && strict_ne (chapterId b) (chapter_id old)); run_orm.
  - destruct (rejects (ChapterFindByPk (chapterId b)) db); [by left|].
    destruct (find_chapter pk_of (chapterId b) db); [|by left]. run_orm.
    match goal with |- context [rejects ?c db] => destruct (rejects c db) end; [by left|].
    rewrite Hk. by right.
  - match goal with |- context [rejects ?c db] => destruct (rejects c db) end; [by left|].
    rewrite Hk. by right.
Qed.

(** C10. Whatever the mapper does, after [updateQuiz] on a stored quiz the
    quiz is still stored, and each of [title], [description], [chapterId]
    and [timeLimit] that is absent or falsy in the body leaves [name],
    [remarks], [chapter_id], [time_duration] at its prior value; a stored
    [name], [remarks] or [time_duration] that is empty (falsy) after the
    request was already that value before it. *)
Theorem updateQuiz_keeps_unset_fields
    (id : string) (b : Body) (db : DB) (k : Z) (old : QuizRow) :
  JS.parseInt id = Some k -> quizzes db !! k = Some old ->
  exists new, quizzes (updateQuiz id b db).2 !! k = Some new /\
    (truthy (title b) = false -> name new = name old) /\
    (truthy (description b) = false -> remarks new = remarks old) /\
    (truthy (chapterId b) = false -> chapter_id new = chapter_id old) /\
    (truthy (timeLimit b) = false -> time_duration new = time_duration old) /\
    (truthy (name new) = false -> name new = name old) /\
    (truthy (remarks new) = false -> remarks new = remarks old) /\
    (truthy (time_duration new) = false -> time_duration new = time_duration old).
Proof.
  intros Hid Hk.
  destruct (updateQuiz_database id b db k old Hid Hk) as [-> | ->].
  - exists old. rewrite Hk. repeat split; done.
  - exists (updated_row b old). simpl. rewrite lookup_insert_eq.
    repeat split; simpl; first [apply or_falsy | apply or_result].
Qed.

End Handlers.

Lemma createQuiz_outcomes_witness :
  status (QuizController.createQuiz number_key same_value never_rejects
            algebra_body 5 sample_db).1 = 400.
Proof.
  pose proof (createQuiz_outcomes number_key same_value never_rejects
                algebra_body 5 sample_db) as (_ & H & _).
  apply H.
  - reflexivity.
  - reflexivity.
  - eexists. reflexivity.
  - exists 7, sample_row. split; reflexivity.
Defined.

Lemma sample_title_free (t : JsValue) :
  t <> JStr "Algebra" -> find_one same_value t (JNum 1) sample_db = None.
Proof.
  intros Ht. apply find_one_None. intros k r Hk. simpl in Hk.
  apply lookup_singleton_Some in Hk as [<- <-].
  unfold matches, same_value. simpl. by rewrite bool_decide_eq_false_2.
Qed.

(** C4, as the claim has it, fails in each outcome.  A request that names
    the stored chapter and has no title is not answered 201: no quiz has
    the title, but the lookup by an [undefined] name is rejected, and the
    answer is 500.  And while the database cannot be reached the answer
    is 500 where the claim has 404, 400 and 201. *)
Lemma createQuiz_claim_fails :
  QuizController.createQuiz number_key same_value rejects_invalid untitled_body 5 sample_db
    = (json 500 "Internal server error", sample_db) /\
  ~ created_otherwise number_key same_value rejects_invalid /\
  ~ missing_chapter_404 number_key same_value database_down /\
  ~ taken_title_400 number_key same_value database_down /\
  ~ created_otherwise number_key same_value database_down.
Proof.
  split; [reflexivity|]. repeat split.
  - intros H. specialize (H untitled_body 5 sample_db).
    assert (Hs : status (QuizController.createQuiz number_key same_value rejects_invalid
                           untitled_body 5 sample_db).1 = 500) by reflexivity.
    rewrite H in Hs; [discriminate | by eexists | by apply sample_title_free].
  - intros H. specialize (H other_chapter_body 5 sample_db eq_refl). discriminate H.
  - intros H. specialize (H algebra_body 5 sample_db).
    assert (Hs : status (QuizController.createQuiz number_key same_value database_down
                           algebra_body 5 sample_db).1 = 500) by reflexivity.
    rewrite H in Hs; [discriminate | by eexists |].
    destruct (find_one same_value (title algebra_body) (chapterId algebra_body) sample_db)
      eqn:E; [done|].
    rewrite find_one_None in E. by specialize (E 7 sample_row eq_refl).
  - intros H. specialize (H untitled_body 5 sample_db).
    assert (Hs : status (QuizController.createQuiz number_key same_value database_down
                           untitled_body 5 sample_db).1 = 500) by reflexivity.
    rewrite H in Hs; [discriminate | by eexists | by apply sample_title_free].
Qed.

Lemma missing_quiz_not_found_witness :
  status (QuizController.updateQuiz number_key never_rejects "8" empty_body sample_db).1 = 404.
Proof.
  pose proof (missing_quiz_not_found number_key never_rejects "8" empty_body sample_db)
    as (H & _).
  apply H. split; [reflexivity|]. intros k [= <-]. reflexivity.
Defined.

(** C7, as the claim has it, fails in each part.  Under an id that is not
    a number no quiz is stored, yet neither handler answers 404: the
    lookup by [NaN] is rejected, and the answer is 500.  And while the
    database cannot be reached, a new [chapterId] that names no chapter is
    answered 500. *)
Lemma not_found_claim_fails :
  no_quiz "abc" sample_db /\
  QuizController.updateQuiz number_key rejects_invalid "abc" empty_body sample_db
    = (json 500 "Internal server error", sample_db) /\
  QuizController.deleteQuiz rejects_invalid "abc" sample_db
    = (json 500 "Internal server error", sample_db) /\
  ~ update_404_iff_missing number_key rejects_invalid /\
  ~ delete_404_iff_missing rejects_invalid /\
  ~ unknown_chapter_404 number_key database_down.
Proof.
  assert (Hno : no_quiz "abc" sample_db) by (intros k [=]).
  split; [done|]. split; [reflexivity|]. split; [reflexivity|]. repeat split.
  - intros H. destruct (H "abc" empty_body sample_db) as [_ Hu].
    destruct (Hu Hno) as [Hs _]. discriminate Hs.
  - intros H. destruct (H "abc" sample_db) as [_ Hd].
    destruct (Hd Hno) as [Hs _]. discriminate Hs.
  - intros H.
    specialize (H "7" other_chapter_body sample_db (7, sample_row)
                  eq_refl eq_refl eq_refl eq_refl).
    discriminate H.
Qed.

Lemma updateQuiz_keeps_unset_fields_witness :
  exists new,
    quizzes (QuizController.updateQuiz number_key never_rejects "7" empty_body sample_db).2 !! 7
      = Some new /\
    name new = JStr "Algebra".
Proof.
  destruct (updateQuiz_keeps_unset_fields number_key never_rejects "7" empty_body
              sample_db 7 sample_row eq_refl eq_refl) as (new & Hn & Ht & _).
  exists new. split; [exact Hn | exact (Ht eq_refl)].
Defined.

End QuizControllerFacts.

Module TakeQuizFacts.
Import TakeQuiz.

(** ** The time format *)

Lemma pad_two_digits (n : Z) :
  0 <= n < 100 -> JS.padStart 2 "0" (JS.toString n) = two_digits n.
Proof.
  intros Hn.
  assert (Hall : forallb (fun i => String.eqb (JS.padStart 2 "0" (JS.toString (Z.of_nat i)))
                                              (two_digits (Z.of_nat i)))
                         (seq 0 100) = true) by (vm_compute; reflexivity).
  rewrite forallb_forall in Hall.
  specialize (Hall (Z.to_nat n)). rewrite Z2Nat.id in Hall by lia.
  apply String.eqb_eq, Hall, in_seq. lia.
Qed.

Lemma pad_long (n : Z) : 10 <= n -> JS.padStart 2 "0" (JS.toString n) = JS.toString n.
Proof.
  intros Hn. destruct n as [|p|p]; try lia.
  unfold JS.toString, JS.padStart. simpl Z.to_int.
  pose proof (DecimalPos.Unsigned.of_to p) as Hp.
  destruct (Pos.to_uint p) as [|d|d|d|d|d|d|d|d|d|d]; simpl in Hp; try discriminate;
    destruct d; simpl in Hp; try discriminate; try (injection Hp as Hp; lia);
    reflexivity.
Qed.

Lemma formattedTime_spec (t : Z) : 0 <= t -> formattedTime t = hh_mm_ss t.
Proof.
  intros Ht. unfold formattedTime, hh_mm_ss, JS.floor_div, JS.rem.
  rewrite !Z.rem_mod_nonneg by lia.
  assert (Hm : (t mod 3600) / 60 = (t / 60) mod 60).
  { replace 3600 with (60 * 60) by lia. rewrite Z.rem_mul_r by lia.
    rewrite Z.add_comm, Z.mul_comm, Z.div_add_l by lia.
    rewrite (Z.div_small (t mod 60)) by (apply Z.mod_pos_bound; lia). lia. }
  rewrite Hm.
  pose proof (Z.mod_pos_bound (t / 60) 60 ltac:(lia)).
  pose proof (Z.mod_pos_bound t 60 ltac:(lia)).
  pose proof (Z.div_pos t 3600 Ht ltac:(lia)).
  rewrite (pad_two_digits ((t / 60) mod 60)), (pad_two_digits (t mod 60)) by lia.
  destruct (Z.ltb_spec (t / 3600) 100).
  - by rewrite pad_two_digits by lia.
  - by rewrite pad_long by lia.
Qed.

(** ** The invariant of the reachable states *)

Lemma init_inv : Inv init.
Proof. split; simpl; try done. lia. Qed.

Lemma timer_effect_same (old new : State) :
  navigated new = None -> quizStarted old = quizStarted new ->
  quizFinished old = quizFinished new -> timer_effect old new = new.
Proof.
  intros Hn Hs Hf. unfold timer_effect, mounted.
  by rewrite !bool_decide_eq_true_2.
Qed.

(** The timer effect writes [timerRef] only. *)
Lemma timer_effect_other (old new : State) :
  exists t, timer_effect old new = set_timerRef t new.
Proof.
  unfold timer_effect, clearInterval.
  repeat case_match; eauto. exists (timerRef new). by destruct new.
Qed.

Lemma browsing_frame id (e : Event) (s : State) :
  browsing e = true ->
  let s' := handle id e s in
  quizStarted s' = quizStarted s /\ quizFinished s' = quizFinished s /\
  navigated s' = navigated s /\ timerRef s' = timerRef s /\
  answers s' = answers s /\ loading s' = loading s /\
  startTime s' = startTime s /\ questions s' = questions s /\
  length (heap s') = length (heap s) /\ timeLeft s' = timeLeft s /\
  quiz s' = quiz s /\ submitted s' = submitted s /\ pending s' = pending s /\
  error s' = error s.
Proof.
  intros He. destruct e; try discriminate; destruct s; simpl;
    unfold handleOptionSelect, goToNextQuestion, goToPreviousQuestion, throw_TypeError;
    simpl; repeat case_match; simpl; rewrite ?length_insert; repeat split.
Qed.

Lemma read_in_range (s : State) (i : Z) :
  Inv s -> 0 <= i < Z.of_nat (length (questions s)) -> is_Some (read s (answers s) i).
Proof.
  intros [_ _ Ha Hh _ _ _ _] Hi. unfold read, index.
  destruct (Z.ltb_spec i 0); [lia|]. rewrite Ha.
  rewrite lookup_seq_lt by lia. simpl. apply lookup_lt_is_Some. lia.
Qed.

(** Everything but the answer to a request needs the mounted page. *)
Lemma enabled_mounted (e : Event) (s : State) :
  enabled e s = true ->
  match e with
  | SubmitResolved _ | SubmitRejected => True
  | _ => navigated s = None
  end.
Proof.
  unfold enabled, mounted. intros H.
  destruct e; try done; apply andb_prop in H as [Hm _];
    by apply bool_decide_eq_true in Hm.
Qed.

Lemma browsing_mounted (e : Event) (s : State) :
  browsing e = true -> enabled e s = true -> navigated s = None.
Proof.
  intros Hb Hen. apply enabled_mounted in Hen. by destruct e.
Qed.

Lemma offered_in_range (optionId : Z) (s : State) :
  offered optionId s = true ->
  0 <= currentQuestionIndex s < Z.of_nat (length (questions s)).
Proof.
  unfold offered, index. intros H.
  destruct (Z.ltb_spec (currentQuestionIndex s) 0); [done|].
  destruct (questions s !! Z.to_nat (currentQuestionIndex s)) eqn:E; [|done].
  apply lookup_lt_Some in E. lia.
Qed.

Lemma browsing_inv id (e : Event) (s : State) :
  browsing e = true -> Inv s -> enabled e s = true -> Inv (step id e s).
Proof.
  intros Hb HI Hen.
  destruct (browsing_frame id e s Hb)
    as (F1 & F2 & F3 & F4 & F5 & F6 & F7 & F8 & F9 & _ & _ & _ & F13 & _).
  pose proof (browsing_mounted e s Hb Hen) as Hm.
  unfold step. rewrite timer_effect_same by congruence.
  pose proof HI as [Ht Hl Ha Hh Hi He Hs Hp].
  assert (Hld : loading s = false).
  { destruct e; try discriminate; unfold enabled, on_page, view in Hen;
      destruct (loading s); try done;
      by rewrite andb_false_r in Hen. }
  split.
  - rewrite F4, F5, F1, F2, F3. done.
  - rewrite F6. congruence.
  - rewrite F5, F9. done.
  - rewrite F9, F8. done.
  - rewrite F8. destruct e; try discriminate; simpl; try done.
    + unfold handleOptionSelect, throw_TypeError. repeat case_match; simpl; done.
    + unfold goToNextQuestion, throw_TypeError. repeat case_match; simpl; lia.
    + unfold goToPreviousQuestion, throw_TypeError. repeat case_match; simpl; lia.
  - destruct e; try discriminate; simpl; try done.
    + assert (Hr : 0 <= currentQuestionIndex s < Z.of_nat (length (questions s))).
      { unfold enabled in Hen. apply andb_prop in Hen as [_ Hen].
        apply andb_prop in Hen as [_ Hen]. by apply offered_in_range in Hen. }
      destruct (read_in_range s _ HI Hr) as [a Hra]. unfold read in Hra.
      unfold handleOptionSelect, throw_TypeError. simpl.
      destruct (index (answers s) (currentQuestionIndex s)) as [l|]; [|done].
      simpl in Hra. rewrite Hra. done.
    + unfold goToNextQuestion, throw_TypeError.
      destruct (Z.ltb_spec (currentQuestionIndex s) (Z.of_nat (length (questions s)) - 1));
        [|done].
      destruct (read_in_range s (currentQuestionIndex s + 1) HI ltac:(lia)) as [a ->].
      done.
    + unfold goToPreviousQuestion, throw_TypeError.
      destruct (Z.ltb_spec 0 (currentQuestionIndex s)); [|done].
      destruct (read_in_range s (currentQuestionIndex s - 1) HI ltac:(lia)) as [a ->].
      done.
  - rewrite F1, F7. done.
  - rewrite F1, F2, F13. done.
Qed.

Ltac finish_inv :=
  split; simpl in *; intros; simplify_eq; try done; try lia; eauto.

Lemma step_inv id (s : State) (e : Event) :
  Inv s -> enabled e s = true -> Inv (step id e s).
Proof.
  intros HI Hen.
  destruct (browsing e) eqn:Hb; [by apply browsing_inv|].
  pose proof HI as [Ht Hl Ha Hh Hi He Hs Hp].
  pose proof (enabled_mounted e s Hen) as Hm.
  destruct e; try discriminate; unfold enabled in Hen; simpl in Hm;
    try apply andb_prop in Hen as [_ Hen].
  - (* the fetch *)
    rewrite (Hl Hen).
    destruct r; split; simpl; try done; try lia.
    all: unfold initialAnswers; by rewrite length_map.
  - (* Start Quiz *)
    unfold on_page, view in Hen.
    destruct (loading s) eqn:Hld; [done|].
    destruct (truthy_error (error s)) eqn:Herr; [done|].
    destruct (quizStarted s) eqn:Hst; [done|].
    destruct (Hp eq_refl) as [Hfi Hpe].
    destruct s; simpl in *. subst.
    unfold step, timer_effect, handle, startQuiz, mounted; simpl. finish_inv.
  - (* Back to Quizzes *)
    unfold on_page, view in Hen.
    destruct (loading s) eqn:Hld; [done|].
    destruct s; simpl in *. subst.
    unfold step, timer_effect, handle, navigate, mounted; simpl. finish_inv.
  - (* Finish Quiz *)
    unfold on_page, view in Hen.
    destruct (loading s) eqn:Hld; [done|].
    destruct (truthy_error (error s)) eqn:Herr; [done|].
    destruct (quizStarted s) eqn:Hst; [|done].
    destruct s; simpl in *. subst.
    unfold step, timer_effect, handle, finishQuiz, mounted; simpl.
    repeat case_match; finish_inv.
  - (* a tick *)
    apply bool_decide_eq_true in Hen as [c Hc].
    destruct (Ht c Hc) as (-> & Hst & Hfi & _).
    assert (Hld : loading s = false).
    { destruct (loading s) eqn:E; [|done]. rewrite (Hl eq_refl) in Hst. done. }
    destruct s; simpl in *. subst.
    unfold step, timer_effect, handle, tick, finishQuiz, mounted; simpl.
    repeat case_match; finish_inv.
  - (* the request resolved *)
    assert (Hld : loading s = false).
    { destruct (loading s) eqn:E; [|done]. rewrite (Hl eq_refl) in Hen. done. }
    apply bool_decide_eq_true in Hen.
    destruct s; simpl in *. subst.
    unfold step, timer_effect, handle, submit_resolved, navigate, mounted; simpl.
    finish_inv.
  - (* the request was rejected *)
    assert (Hld : loading s = false).
    { destruct (loading s) eqn:E; [|done]. rewrite (Hl eq_refl) in Hen. done. }
    apply bool_decide_eq_true in Hen.
    destruct s; simpl in *. subst.
    unfold step, timer_effect, handle, submit_rejected, mounted; simpl.
    repeat case_match; finish_inv;
      try (destruct (Ht _ eq_refl) as (? & ? & ? & ?); by simplify_eq);
      try (by destruct quizStarted0);
      try (destruct (Hp eq_refl); lia).
    match goal with H : negb (bool_decide _) = false |- _ =>
      apply negb_false_iff, bool_decide_eq_true in H end.
    by destruct quizStarted0.
Qed.

Lemma reachable_inv id (s : State) : reachable id s -> Inv s.
Proof.
  induction 1 as [|s e _ IH Hen]; [apply init_inv | by apply step_inv].
Qed.

Lemma reachable_run id (es : list Event) (s : State) :
  reachable id s -> reachable id (run id es s).
Proof.
  revert s. induction es as [|e es IH]; intros s Hs; simpl; [done|].
  apply IH. destruct (enabled e s) eqn:E; [by constructor | done].
Qed.

(** ** The phases *)

Lemma step_fields id (e : Event) (s : State) :
  let s' := step id e s in
  let h := handle id e s in
  quizStarted s' = quizStarted h /\ quizFinished s' = quizFinished h /\
  timeLeft s' = timeLeft h /\ submitted s' = submitted h /\
  answers s' = answers h /\ heap s' = heap h /\ error s' = error h /\
  navigated s' = navigated h /\ quiz s' = quiz h /\
  currentQuestionIndex s' = currentQuestionIndex h /\ questions s' = questions h.
Proof.
  simpl. unfold step.
  destruct (timer_effect_other s (handle id e s)) as [t ->].
  by destruct (handle id e s).
Qed.

Lemma phase_step id (e : Event) (s : State) :
  phase (step id e s) = phase (handle id e s).
Proof.
  destruct (step_fields id e s) as (H1 & H2 & _). unfold phase. by rewrite H1, H2.
Qed.

Lemma tick_enabled id (s : State) (now : Z) :
  reachable id s -> enabled (Tick now) s = true ->
  timerRef s = Some (answers s) /\ quizStarted s = true /\ quizFinished s = false.
Proof.
  intros Hr Hen. apply reachable_inv in Hr as [Ht _ _ _ _ _ _ _].
  unfold enabled in Hen. apply andb_prop in Hen as [_ Hen].
  apply bool_decide_eq_true in Hen as [c Hc].
  destruct (Ht c Hc) as (-> & ? & ? & _). done.
Qed.

(** C1, as the code has it. The flow is not started, in progress or
    finished. From not started the only way out is Start Quiz, to in
    progress; from in progress the only way out is [finishQuiz], by the
    Finish Quiz button or by a tick with at most one second left, to
    finished; and the only way out of finished is the rejection of the
    submission, back to in progress. *)
Theorem phase_transitions id (s : State) (e : Event) :
  reachable id s -> enabled e s = true ->
  match phase s with
  | NotStarted =>
      phase (step id e s) = NotStarted \/
      (phase (step id e s) = InProgress /\ exists now, e = ClickStart now)
  | InProgress =>
      phase (step id e s) = InProgress \/
      (phase (step id e s) = Finished /\
       ((exists now, e = ClickFinish now) \/
        (exists now, e = Tick now /\ timeLeft s <= 1)))
  | Finished =>
      phase (step id e s) = Finished \/
      (phase (step id e s) = InProgress /\ e = SubmitRejected)
  end.
Proof.
  intros Hr Hen. rewrite phase_step.
  pose proof (reachable_inv id s Hr) as [_ _ _ _ _ _ _ Hp].
  destruct (browsing e) eqn:Hb.
  { destruct (browsing_frame id e s Hb) as (F1 & F2 & _).
    unfold phase. rewrite F1, F2. repeat case_match; by left. }
  destruct e; try discriminate.
  - (* the fetch *)
    assert (phase (handle id (FetchDone r) s) = phase s) as ->.
    { destruct r, s; reflexivity. }
    destruct (phase s); by left.
  - (* Start Quiz *)
    unfold enabled, on_page, view in Hen. apply andb_prop in Hen as [_ Hen].
    destruct (loading s); [done|]. destruct (truthy_error (error s)); [done|].
    destruct (quizStarted s) eqn:Hst; [done|]. destruct (Hp eq_refl) as [Hfi _].
    unfold phase. simpl. rewrite Hst, Hfi. right. eauto.
  - (* Back to Quizzes *)
    assert (phase (handle id ClickBack s) = phase s) as -> by (by destruct s).
    destruct (phase s); by left.
  - (* Finish Quiz *)
    unfold enabled, on_page, view in Hen. apply andb_prop in Hen as [_ Hen].
    destruct (loading s); [done|]. destruct (truthy_error (error s)); [done|].
    destruct (quizStarted s) eqn:Hst; [|done].
    unfold phase. simpl. rewrite Hst.
    destruct (quizFinished s); [by left | right; eauto].
  - (* a tick *)
    destruct (tick_enabled id s now Hr Hen) as (Hc & Hst & Hfi).
    unfold phase at 1. rewrite Hst, Hfi. simpl. unfold tick. rewrite Hc.
    destruct (Z.leb_spec (timeLeft s) 1).
    + right. split; [reflexivity | right; eauto].
    + left. unfold phase. simpl. by rewrite Hst, Hfi.
  - (* the request resolved *)
    assert (phase (handle id (SubmitResolved scoreId) s) = phase s) as ->
      by (by destruct s).
    destruct (phase s); by left.
  - (* the request was rejected *)
    unfold phase. simpl.
    destruct (quizFinished s) eqn:Hfi, (quizStarted s) eqn:Hst; auto.
    by destruct (Hp eq_refl).
Qed.

Lemma finished_by_button_reachable :
  reachable (Some "3") (run (Some "3") finished_by_button init).
Proof. apply reachable_run. constructor. Qed.


Lemma phase_transitions_witness :
  phase (step (Some "3") SubmitRejected (run (Some "3") finished_by_button init))
    = Finished \/
  (phase (step (Some "3") SubmitRejected (run (Some "3") finished_by_button init))
     = InProgress /\ SubmitRejected = SubmitRejected).
Proof.
  exact (phase_transitions (Some "3") (run (Some "3") finished_by_button init)
           SubmitRejected finished_by_button_reachable eq_refl).
Defined.

(** C1, as the claim has it, fails: after the user confirmed Finish Quiz the
    flow is finished, and the rejection of the submission takes it back to
    in progress. *)
Lemma finished_is_left : ~ finished_is_final (Some "3").
Proof.
  intros H.
  specialize (H (run (Some "3") finished_by_button init) SubmitRejected
                finished_by_button_reachable eq_refl eq_refl).
  vm_compute in H. discriminate.
Qed.

(** ** The countdown *)

Lemma timeLeft_nonneg id (s : State) :
  reachable id s -> (forall q, quiz s = Some q -> 0 <= timeLimit q) -> 0 <= timeLeft s.
Proof.
  induction 1 as [|s e Hr IH Hen]; [simpl; lia|].
  destruct (step_fields id e s) as (_ & _ & -> & _ & _ & _ & _ & _ & -> & _).
  destruct (browsing e) eqn:Hb.
  { destruct (browsing_frame id e s Hb)
      as (_ & _ & _ & _ & _ & _ & _ & _ & _ & -> & -> & _). done. }
  destruct e; try discriminate; simpl.
  - destruct r; simpl; intros Hq; try (specialize (Hq _ eq_refl); lia).
    apply IH. intros q Hs. apply Hq. by destruct s.
  - intros Hq. replace (timeLeft (startQuiz now s)) with (timeLeft s) by (by destruct s).
    apply IH. intros q Hs. apply Hq. by destruct s.
  - intros Hq. replace (timeLeft (navigate "/quizzes" s)) with (timeLeft s)
      by (by destruct s).
    apply IH. intros q Hs. apply Hq. by destruct s.
  - intros Hq. replace (timeLeft (finishQuiz id (answers s) now s)) with (timeLeft s)
      by (by destruct s).
    apply IH. intros q Hs. apply Hq. by destruct s.
  - unfold tick. destruct (timerRef s); [|exact IH].
    intros Hq. destruct (Z.leb_spec (timeLeft s) 1); simpl; [lia|].
    assert (0 <= timeLeft s); [|lia].
    apply IH. intros q Hs. apply Hq. by destruct s.
  - intros Hq. replace (timeLeft (submit_resolved scoreId s)) with (timeLeft s)
      by (by destruct s).
    apply IH. intros q Hs. apply Hq. by destruct s.
  - intros Hq. replace (timeLeft (submit_rejected s)) with (timeLeft s)
      by (by destruct s).
    apply IH. intros q Hs. apply Hq. by destruct s.
Qed.


Lemma started_reachable : reachable (Some "3") (run (Some "3") started init).
Proof. apply reachable_run. constructor. Qed.



(** ** Submission *)

Lemma elapsed_format (start : option Z) (endTime : Z) :
  (forall t0, start = Some t0 -> t0 <= endTime) ->
  formattedTime (timeTaken start endTime) =
  hh_mm_ss (match start with Some t0 => (endTime - t0) / 1000 | None => 0 end).
Proof.
  intros Hc. unfold timeTaken, JS.floor_div. apply formattedTime_spec.
  destruct start as [t0|]; [|lia].
  specialize (Hc t0 eq_refl). apply Z.div_pos; lia.
Qed.

(** Only [finishQuiz] sends a request. *)
Lemma other_events_send_nothing id (s : State) (e : Event) :
  (forall now, e <> ClickFinish now) -> (forall now, e <> Tick now) ->
  submitted (step id e s) = submitted s.
Proof.
  intros Hf Ht. destruct (step_fields id e s) as (_ & _ & _ & -> & _).
  destruct (browsing e) eqn:Hb.
  { by destruct (browsing_frame id e s Hb)
      as (_ & _ & _ & _ & _ & _ & _ & _ & _ & _ & _ & -> & _). }
  destruct e; try discriminate; try (by destruct s).
  - by destruct r, s.
  - by destruct (Hf now).
  - by destruct (Ht now).
Qed.

(** C3, as the code has it. Whenever [finishQuiz] runs, by the Finish Quiz
    button or by the tick that ends the time, the request it sends holds
    the quiz id, the answers now in the [answers] array whose
    [selected_option] is not -1, in order, and a time; when the end time is
    not before the start time, the time is the seconds
    [floor((endTime - startTime) / 1000)], or 0 without a start time,
    written as zero-padded HH:MM:SS; 0 seconds is ["00:00:00"]; and when a
    request resolves the component navigates to [/results/] followed by
    the score id. *)
Theorem submission_contents id (s : State) (e : Event) (endTime : Z) :
  reachable id s -> enabled e s = true ->
  e = ClickFinish endTime \/ (e = Tick endTime /\ timeLeft s <= 1) ->
  (exists sent,
     submitted (step id e s) =
       {| quiz_id := quizId id;
          req_answers := List.filter (fun a => negb (selected_option a =? -1))
                                     (deref (heap s) (answers s));
          time_taken := sent |} :: submitted s /\
     ((forall t0, startTime s = Some t0 -> t0 <= endTime) ->
      sent = hh_mm_ss (match startTime s with
                       | Some t0 => (endTime - t0) / 1000
                       | None => 0
                       end))) /\
  hh_mm_ss 0 = "00:00:00" /\
  (forall scoreId s1,
     navigated (step id (SubmitResolved scoreId) s1)
       = Some ("/results/" ++ JS.toString scoreId)).
Proof.
  intros Hr Hen He. split; [|split; [reflexivity|]].
  - exists (formattedTime (timeTaken (startTime s) endTime)).
    split; [|apply elapsed_format].
    destruct (step_fields id e s) as (_ & _ & _ & -> & _).
    destruct He as [-> | [-> Hle]].
    + by destruct s.
    + destruct (tick_enabled id s endTime Hr Hen) as (Ht & _).
      simpl. unfold tick. rewrite Ht.
      destruct (Z.leb_spec (timeLeft s) 1); [|lia]. by destruct s.
  - intros scoreId s1.
    destruct (step_fields id (SubmitResolved scoreId) s1)
      as (_ & _ & _ & _ & _ & _ & _ & -> & _).
    reflexivity.
Qed.

Lemma submission_contents_witness :
  exists sent,
    submitted (step (Some "3") (ClickFinish 5000)
                 (run (Some "3") (started ++ [ClickOption 101; ClickNext]) init)) =
    [ {| quiz_id := Some 3;
         req_answers := [ {| question_id := 11; selected_option := 101 |} ];
         time_taken := sent |} ] /\
    sent = "00:00:05".
Proof.
  assert (Hr : reachable (Some "3")
                 (run (Some "3") (started ++ [ClickOption 101; ClickNext]) init)).
  { apply reachable_run. constructor. }
  assert (Hc : forall t0,
             startTime (run (Some "3") (started ++ [ClickOption 101; ClickNext]) init)
               = Some t0 -> t0 <= 5000).
  { intros t0 [= <-]. lia. }
  destruct (submission_contents (Some "3") _ (ClickFinish 5000) 5000 Hr eq_refl
              (or_introl eq_refl)) as [(sent & Hs & Ht) _].
  exists sent. split; [exact Hs | exact (Ht Hc)].
Defined.

(** C3, as the claim has it, fails: when the clock is set back between the
    start and the end of the quiz the elapsed time is negative, and what is
    sent is not a zero-padded HH:MM:SS.  Started at 5 s and finished at
    4.5 s, the quiz is submitted with the time ["-1:-1:-1"]. *)
Lemma clock_set_back :
  map time_taken
    (submitted (step (Some "3") (ClickFinish 4500)
                  (run (Some "3") before_the_clock_is_set_back init)))
    = [ "-1:-1:-1" ] /\
  ~ elapsed_sent_as_hh_mm_ss (Some "3").
Proof.
  split; [reflexivity|].
  intros H.
  assert (Hr : reachable (Some "3") (run (Some "3") before_the_clock_is_set_back init)).
  { apply reachable_run. constructor. }
  destruct (H _ 4500 Hr eq_refl) as (r & Hh & Ht).
  vm_compute in Hh. injection Hh as <-. vm_compute in Ht. discriminate.
Qed.

(** ** The question index *)

(** C8. In every reachable state with a non-empty question list the index
    is between 0 and [questions.length - 1], so [questions[index]] is
    there; [goToNextQuestion] adds one only below the last question and
    otherwise opens the confirmation, leaving the index; and
    [goToPreviousQuestion] takes one off only above 0. *)
Theorem index_in_bounds id (s : State) :
  reachable id s -> questions s <> [] ->
  (0 <= currentQuestionIndex s <= Z.of_nat (length (questions s)) - 1) /\
  is_Some (index (questions s) (currentQuestionIndex s)) /\
  (if currentQuestionIndex s <? Z.of_nat (length (questions s)) - 1
   then currentQuestionIndex (goToNextQuestion s) = currentQuestionIndex s + 1 /\
        showConfirmModal (goToNextQuestion s) = showConfirmModal s
   else currentQuestionIndex (goToNextQuestion s) = currentQuestionIndex s /\
        showConfirmModal (goToNextQuestion s) = true) /\
  (if 0 <? currentQuestionIndex s
   then currentQuestionIndex (goToPreviousQuestion s) = currentQuestionIndex s - 1
   else currentQuestionIndex (goToPreviousQuestion s) = currentQuestionIndex s).
Proof.
  intros Hr Hne. pose proof (reachable_inv id s Hr) as [_ _ _ _ Hi _ _ _].
  assert (Hlen : (0 < length (questions s))%nat).
  { destruct (questions s); [done | simpl; lia]. }
  assert (Hb : 0 <= currentQuestionIndex s <= Z.of_nat (length (questions s)) - 1) by lia.
  split; [exact Hb|]. split.
  - unfold index. destruct (Z.ltb_spec (currentQuestionIndex s) 0); [lia|].
    apply lookup_lt_is_Some. lia.
  - split.
    + unfold goToNextQuestion, throw_TypeError.
      destruct (currentQuestionIndex s <? Z.of_nat (length (questions s)) - 1);
        [|by destruct s].
      destruct (read s (answers s) (currentQuestionIndex s + 1)); by destruct s.
    + unfold goToPreviousQuestion, throw_TypeError.
      destruct (0 <? currentQuestionIndex s); [|done].
      destruct (read s (answers s) (currentQuestionIndex s - 1)); by destruct s.
Qed.

Lemma index_in_bounds_witness :
  0 <= currentQuestionIndex (run (Some "3") finished_by_button init)
    <= Z.of_nat (length (questions (run (Some "3") finished_by_button init))) - 1.
Proof.
  exact (proj1 (index_in_bounds (Some "3") (run (Some "3") finished_by_button init)
                  finished_by_button_reachable ltac:(discriminate))).
Defined.

(** ** A rejected submission *)

(** C9. When the request is rejected, [finishQuiz] sets the error message
    and resets [quizFinished]; it does not navigate; the [answers] array
    and the answers in it are as they were before [finishQuiz] was called;
    and a started quiz is in progress again.  The same holds of the
    rejection as an event of the component. *)
Theorem rejected_submission id (s : State) (closure : list loc) (endTime : Z) :
  let s1 := finishQuiz id closure endTime s in
  let s2 := submit_rejected s1 in
  (quizFinished s1 = true /\
   error s2 = Some "Failed to submit quiz. Please try again." /\
   quizFinished s2 = false /\
   navigated s2 = navigated s /\
   answers s2 = answers s /\ heap s2 = heap s /\
   phase s2 = (if quizStarted s then InProgress else NotStarted)) /\
  (error (step id SubmitRejected s) = Some "Failed to submit quiz. Please try again." /\
   quizFinished (step id SubmitRejected s) = false /\
   navigated (step id SubmitRejected s) = navigated s /\
   answers (step id SubmitRejected s) = answers s /\
   heap (step id SubmitRejected s) = heap s).
Proof.
  simpl. split; [by destruct s|].
  destruct (step_fields id SubmitRejected s)
    as (_ & -> & _ & _ & -> & -> & -> & -> & _).
  by destruct s.
Qed.

End TakeQuizFacts.

(** * More of the code *)

Module NumeralFacts.
Import Numerals.

Lemma digits_numeral (d : Decimal.uint) (acc : Z) :
  JS.digits 10 (Some acc) (NilEmpty.string_of_uint d) = Some (uint_value acc d).
Proof.
  revert acc. induction d; intros acc; simpl; try done; apply IHd.
Qed.

Lemma of_uint_acc_value (d : Decimal.uint) (acc : positive) :
  Z.pos (Pos.of_uint_acc d acc) = uint_value (Z.pos acc) d.
Proof.
  revert acc. induction d; intros acc; simpl; try done; rewrite IHd; f_equal; lia.
Qed.

Lemma of_uint_value (d : Decimal.uint) : Z.of_N (Pos.of_uint d) = uint_value 0 d.
Proof.
  induction d; simpl; try done; apply of_uint_acc_value.
Qed.

Lemma numeral_value (p : positive) : uint_value 0 (Pos.to_uint p) = Z.pos p.
Proof.
  rewrite <- of_uint_value, Unsigned.of_to. reflexivity.
Qed.

Ltac numeral_case Hp :=
  unfold JS.parseInt; simpl; rewrite digits_numeral;
  match goal with
  | |- Some (_ * ?v) = Some (Z.pos ?p) =>
      replace v with (Z.pos p) by (rewrite <- Hp; reflexivity)
  | |- Some (_ * ?v) = Some (Z.neg ?p) =>
      replace v with (Z.pos p) by (rewrite <- Hp; reflexivity)
  end; reflexivity.

(** [parseInt] reads back the decimal form [toString] writes. *)
Lemma parseInt_decimal (n : Z) : JS.parseInt (JS.toString n) = Some n.
Proof.
  unfold JS.toString. destruct n as [|p|p]; [reflexivity| |]; simpl Z.to_int;
    pose proof (numeral_value p) as Hp;
    unfold NilZero.string_of_int, NilZero.string_of_uint.
  - destruct (Pos.to_uint p) as [|d|d|d|d|d|d|d|d|d|d]; simpl in Hp; try discriminate;
      try numeral_case Hp.
    destruct d; simpl in Hp; try discriminate; numeral_case Hp.
  - destruct (Pos.to_uint p) as [|d|d|d|d|d|d|d|d|d|d]; simpl in Hp; try discriminate;
      try numeral_case Hp.
    destruct d; simpl in Hp; try discriminate; numeral_case Hp.
Qed.

End NumeralFacts.

Module QuizControllerMore.
Import QuizController QuizReads.

Section Handlers.

Variable pk_of : JsValue -> option Z.
Variable col_eq : JsValue -> JsValue -> bool.
Variable rejects : OrmCall -> DB -> bool.

Abbreviation createQuiz := (createQuiz pk_of col_eq rejects).
Abbreviation updateQuiz := (updateQuiz pk_of rejects).
Abbreviation deleteQuiz := (deleteQuiz rejects).

Ltac run_orm :=
  unfold try_catch, apply_update, Chapter_findByPk, Quiz_findOne, Quiz_create,
    Quiz_findByPk, Quiz_update, Quiz_destroy, call, mbind, mret, Orm_bind, Orm_ret;
  simpl.

Ltac case_rejects :=
  match goal with |- context [rejects ?c ?db] => destruct (rejects c db) eqn:? end.

(** The four ways [createQuiz] ends. *)
Lemma createQuiz_cases (b : Body) (now : Z) (db : DB) :
  createQuiz b now db = (json 500 "Internal server error", db) \/
  createQuiz b now db = (json 404 "Chapter not found", db) \/
  createQuiz b now db = (json 400 "Quiz already exists in this chapter", db) \/
  (is_Some (find_chapter pk_of (chapterId b) db) /\
   find_one col_eq (title b) (chapterId b) db = None /\
   let row := {| name := title b; remarks := description b; chapter_id := chapterId b;
                 date_of_quiz := now;
                 time_duration := or (timeLimit b) (JStr "00:30") |} in
   let k := fresh (dom (quizzes db)) in
   createQuiz b now db =
     ({| status := 201; message := "Quiz created successfully"; quiz := Some (k, row) |},
      {| chapters := chapters db; quizzes := <[k := row]> (quizzes db) |})).
Proof.
  unfold QuizController.createQuiz. run_orm.
  case_rejects; [by left|].
  destruct (find_chapter pk_of (chapterId b) db) eqn:Hc; [|by right; left].
  case_rejects; [by left|].
  destruct (find_one col_eq (title b) (chapterId b) db) eqn:Hf; [by right; right; left|].
  case_rejects; [by left|].
  right; right; right. simpl. eauto.
Qed.

(** The four ways [updateQuiz] ends. *)
Lemma updateQuiz_cases (id : string) (b : Body) (db : DB) :
  updateQuiz id b db = (json 500 "Internal server error", db) \/
  updateQuiz id b db = (json 404 "Quiz not found", db) \/
  updateQuiz id b db = (json 404 "Chapter not found", db) \/
  (exists k old,
     JS.parseInt id = Some k /\ quizzes db !! k = Some old /\
     (truthy (chapterId b) = true -> strict_ne (chapterId b) (chapter_id old) = true ->
      is_Some (find_chapter pk_of (chapterId b) db)) /\
     updateQuiz id b db =
       ({| status := 200; message := "Quiz updated successfully";
           quiz := Some (k, updated_row b old) |},
        {| chapters := chapters db;
           quizzes := <[k := updated_row b old]> (quizzes db) |})).
Proof.
  unfold QuizController.updateQuiz. run_orm.
  case_rejects; [by left|].
  unfold find_quiz. destruct (JS.parseInt id) as [k|] eqn:Hid; simpl; [|by right; left].
  destruct (quizzes db !! k) as [old|] eqn:Hk; simpl; [|by right; left].
  destruct (truthy (chapterId b)) eqn:Ht; simpl.
  - destruct (strict_ne (chapterId b) (chapter_id old)) eqn:Hne; run_orm.
    + case_rejects; [by left|].
      destruct (find_chapter pk_of (chapterId b) db) eqn:Hc; [|by right; right; left].
      run_orm. case_rejects; [by left|].
      rewrite Hk. right; right; right. exists k, old. eauto.
    + case_rejects; [by left|].
      rewrite Hk. right; right; right. exists k, old.
      repeat split; try done; intros; congruence.
  - case_rejects; [by left|].
    rewrite Hk. right; right; right. exists k, old.
      repeat split; try done; intros; congruence.
Qed.

(** The three ways [deleteQuiz] ends. *)
Lemma deleteQuiz_cases (id : string) (db : DB) :
  deleteQuiz id db = (json 500 "Internal server error", db) \/
  deleteQuiz id db = (json 404 "Quiz not found", db) \/
  (exists k old,
     JS.parseInt id = Some k /\ quizzes db !! k = Some old /\
     deleteQuiz id db =
       (json 200 "Quiz deleted successfully",
        {| chapters := chapters db; quizzes := delete k (quizzes db) |})).
Proof.
  unfold QuizController.deleteQuiz. run_orm.
  case_rejects; [by left|].
  unfold find_quiz. destruct (JS.parseInt id) as [k|] eqn:Hid; simpl; [|by right; left].
  destruct (quizzes db !! k) as [old|] eqn:Hk; simpl; [|by right; left].
  case_rejects; [by left|].
  right; right. exists k, old. done.
Qed.

Lemma strict_ne_false (a b : JsValue) : strict_ne a b = false -> a = b.
Proof.
  unfold strict_ne. intros H.
  destruct a, b; try discriminate; apply negb_false_iff, bool_decide_eq_true in H; done.
Qed.

(** X2. Whatever the mapper does, [updateQuiz] and [deleteQuiz] answer only
    200, 404 or 500 and leave the database as it was unless they answer
    200; and none of the three writing handlers changes the chapters. *)
Theorem writes_only_on_success (id : string) (b : Body) (now : Z) (db : DB) :
  (status (updateQuiz id b db).1 ∈ [200; 404; 500] /\
   (status (updateQuiz id b db).1 <> 200 -> (updateQuiz id b db).2 = db)) /\
  (status (deleteQuiz id db).1 ∈ [200; 404; 500] /\
   (status (deleteQuiz id db).1 <> 200 -> (deleteQuiz id db).2 = db)) /\
  chapters (createQuiz b now db).2 = chapters db /\
  chapters (updateQuiz id b db).2 = chapters db /\
  chapters (deleteQuiz id db).2 = chapters db.
Proof.
  split; [|split; [|split; [|split]]].
  - destruct (updateQuiz_cases id b db) as [-> | [-> | [-> | (k & old & _ & _ & _ & ->)]]];
      simpl; split; try done; set_solver.
  - destruct (deleteQuiz_cases id db) as [-> | [-> | (k & old & _ & _ & ->)]];
      simpl; split; try done; set_solver.
  - destruct (createQuiz_cases b now db) as [-> | [-> | [-> | (_ & _ & ->)]]]; done.
  - by destruct (updateQuiz_cases id b db) as [-> | [-> | [-> | (k & old & _ & _ & _ & ->)]]].
  - by destruct (deleteQuiz_cases id db) as [-> | [-> | (k & old & _ & _ & ->)]].
Qed.

Lemma deleteQuiz_found (id : string) (db : DB) (k : Z) (old : QuizRow) :
  answers_all rejects db -> JS.parseInt id = Some k -> quizzes db !! k = Some old ->
  deleteQuiz id db =
    (json 200 "Quiz deleted successfully",
     {| chapters := chapters db; quizzes := delete k (quizzes db) |}).
Proof.
  intros Hok Hid Hk. unfold QuizController.deleteQuiz. run_orm.
  rewrite Hok. unfold find_quiz. rewrite Hid. simpl. rewrite Hk. simpl.
  by rewrite Hok.
Qed.

(** X3. When the mapper answers, [deleteQuiz] on a stored quiz answers 200
    and removes that row and nothing else; asked again for the same id,
    [deleteQuiz] and [updateQuiz] answer 404 'Quiz not found'. *)
Theorem deleteQuiz_removes
    (id : string) (b : Body) (db : DB) (k : Z) (old : QuizRow) :
  (forall c d, rejects c d = false) ->
  JS.parseInt id = Some k -> quizzes db !! k = Some old ->
  let db' := (deleteQuiz id db).2 in
  (deleteQuiz id db).1 = json 200 "Quiz deleted successfully" /\
  quizzes db' !! k = None /\
  (forall j, j <> k -> quizzes db' !! j = quizzes db !! j) /\
  deleteQuiz id db' = (json 404 "Quiz not found", db') /\
  updateQuiz id b db' = (json 404 "Quiz not found", db').
Proof.
  intros Hok Hid Hk. simpl.
  rewrite (deleteQuiz_found id db k old (fun c => Hok c db) Hid Hk). simpl.
  split; [done|]. split; [apply lookup_delete_eq|].
  split; [intros j Hj; by apply lookup_delete_ne|].
  split.
  - unfold QuizController.deleteQuiz. run_orm. rewrite Hok.
    unfold find_quiz. rewrite Hid. simpl. by rewrite lookup_delete_eq.
  - unfold QuizController.updateQuiz. run_orm. rewrite Hok.
    unfold find_quiz. rewrite Hid. simpl. by rewrite lookup_delete_eq.
Qed.

Lemma updateQuiz_found (id : string) (b : Body) (db : DB) (k : Z) (old : QuizRow) :
  answers_all rejects db ->
  JS.parseInt id = Some k -> quizzes db !! k = Some old ->
  (truthy (chapterId b) = true -> strict_ne (chapterId b) (chapter_id old) = true ->
   is_Some (find_chapter pk_of (chapterId b) db)) ->
  updateQuiz id b db =
    ({| status := 200; message := "Quiz updated successfully";
        quiz := Some (k, updated_row b old) |},
     {| chapters := chapters db; quizzes := <[k := updated_row b old]> (quizzes db) |}).
Proof.
  intros Hok Hid Hk Hch.
  unfold QuizController.updateQuiz. run_orm. rewrite Hok.
  unfold find_quiz. rewrite Hid. simpl. rewrite Hk. simpl.
  destruct (truthy (chapterId b)) eqn:Ht; simpl.
  - destruct (strict_ne (chapterId b) (chapter_id old)) eqn:Hne; run_orm.
    + rewrite Hok. destruct (Hch eq_refl eq_refl) as [c ->]. run_orm.
      by rewrite Hok, Hk.
    + by rewrite Hok, Hk.
  - by rewrite Hok, Hk.
Qed.

(** X4. When the mapper answers, [updateQuiz] on a stored quiz whose
    requested chapter is absent, unchanged or stored answers 200 with the
    new row: each truthy field of the body replaces its column, the date is
    kept, and no other quiz changes. *)
Theorem updateQuiz_overwrites
    (id : string) (b : Body) (db : DB) (k : Z) (old : QuizRow) :
  answers_all rejects db ->
  JS.parseInt id = Some k -> quizzes db !! k = Some old ->
  (truthy (chapterId b) = true -> strict_ne (chapterId b) (chapter_id old) = true ->
   is_Some (find_chapter pk_of (chapterId b) db)) ->
  let db' := (updateQuiz id b db).2 in
  exists new,
    (updateQuiz id b db).1 =
      {| status := 200; message := "Quiz updated successfully"; quiz := Some (k, new) |} /\
    quizzes db' !! k = Some new /\
    (truthy (title b) = true -> name new = title b) /\
    (truthy (description b) = true -> remarks new = description b) /\
    (truthy (chapterId b) = true -> chapter_id new = chapterId b) /\
    (truthy (timeLimit b) = true -> time_duration new = timeLimit b) /\
    date_of_quiz new = date_of_quiz old /\
    (forall j, j <> k -> quizzes db' !! j = quizzes db !! j).
Proof.
  intros Hok Hid Hk Hch. simpl. exists (updated_row b old).
  rewrite (updateQuiz_found id b db k old Hok Hid Hk Hch). simpl. split; [done|]. split; [apply lookup_insert_eq|].
  unfold or. repeat split; try (by intros ->).
  intros j Hj. by apply lookup_insert_ne.
Qed.

(** X5. The three writing handlers keep every stored quiz pointing at a
    stored chapter, whatever the mapper does: [createQuiz] and [updateQuiz]
    look the chapter up before they write it. *)
Theorem chapter_integrity_kept (id : string) (b : Body) (now : Z) (db : DB) :
  chapter_integrity pk_of db ->
  chapter_integrity pk_of (createQuiz b now db).2 /\
  chapter_integrity pk_of (updateQuiz id b db).2 /\
  chapter_integrity pk_of (deleteQuiz id db).2.
Proof.
  intros HI. split; [|split].
  - destruct (createQuiz_cases b now db) as [-> | [-> | [-> | (Hc & _ & ->)]]]; try done.
    intros j r. simpl. unfold find_chapter. simpl.
    destruct (decide (fresh (dom (quizzes db)) = j)) as [<- | Hj].
    + rewrite lookup_insert_eq. by intros [= <-].
    + rewrite lookup_insert_ne by done. apply HI.
  - destruct (updateQuiz_cases id b db)
      as [-> | [-> | [-> | (k & old & _ & Hk & Hch & ->)]]]; try done.
    intros j r. simpl. unfold find_chapter. simpl.
    destruct (decide (k = j)) as [<- | Hj].
    + rewrite lookup_insert_eq. intros [= <-]. simpl. unfold or.
      destruct (truthy (chapterId b)) eqn:Ht; [|by apply (HI k)].
      destruct (strict_ne (chapterId b) (chapter_id old)) eqn:Hne; [by apply Hch|].
      apply strict_ne_false in Hne. rewrite Hne. by apply (HI k).
    + rewrite lookup_insert_ne by done. apply HI.
  - destruct (deleteQuiz_cases id db) as [-> | [-> | (k & old & _ & _ & ->)]]; try done.
    intros j r. simpl. unfold find_chapter. simpl.
    intros Hj. apply lookup_delete_Some in Hj as [_ Hj]. by apply (HI j).
Qed.


(** X8. Creating a quiz and deleting it by the id the answer carries gives
    back the database as it was, when the mapper answers. *)
Theorem create_then_delete (b : Body) (now : Z) (db : DB) :
  (forall c d, rejects c d = false) ->
  status (createQuiz b now db).1 = 201 ->
  exists k row,
    quiz (createQuiz b now db).1 = Some (k, row) /\
    quizzes db !! k = None /\
    quizzes (createQuiz b now db).2 !! k = Some row /\
    deleteQuiz (JS.toString k) (createQuiz b now db).2 =
      (json 200 "Quiz deleted successfully", db).
Proof.
  intros Hok Hst.
  destruct (createQuiz_cases b now db) as [H | [H | [H | (_ & _ & H)]]];
    cbv zeta in H; rewrite H in Hst |- *; try discriminate. clear Hst H. simpl.
  set (k := fresh (dom (quizzes db))).
  set (row := {| name := title b; remarks := description b; chapter_id := chapterId b;
                 date_of_quiz := now; time_duration := or (timeLimit b) (JStr "00:30") |}).
  exists k, row.
  assert (Hk : quizzes db !! k = None) by (apply not_elem_of_dom, is_fresh).
  split; [done|]. split; [done|]. split; [apply lookup_insert_eq|].
  rewrite (deleteQuiz_found _ _ k row).
  - simpl. f_equal. rewrite delete_insert_eq, delete_id by done. by destruct db.
  - intros c. apply Hok.
  - apply NumeralFacts.parseInt_decimal.
  - apply lookup_insert_eq.
Qed.

(** X7. [updateQuiz] does not make the check [createQuiz] makes: when the
    mapper answers and column equality is reflexive, a quiz can be given
    the title of another quiz of its chapter, and the titles of that
    chapter are no longer distinct. *)
Theorem updateQuiz_can_duplicate (db : DB) (k1 k2 : Z) (r1 r2 : QuizRow) :
  answers_all rejects db -> (forall x, col_eq x x = true) ->
  k1 <> k2 -> quizzes db !! k1 = Some r1 -> quizzes db !! k2 = Some r2 ->
  truthy (name r1) = true -> chapter_id r1 = chapter_id r2 ->
  let b := {| title := name r1; description := JUndefined; chapterId := JUndefined;
              timeLimit := JUndefined |} in
  status (updateQuiz (JS.toString k2) b db).1 = 200 /\
  ~ unique_titles col_eq (updateQuiz (JS.toString k2) b db).2.
Proof.
  intros Hok Hrefl Hne H1 H2 Ht Hch. simpl.
  rewrite (updateQuiz_found _ _ db k2 r2 Hok (NumeralFacts.parseInt_decimal k2) H2)
    by (simpl; discriminate).
  simpl. split; [done|]. intros HU.
  specialize (HU k1 k2 r1 (updated_row
    {| title := name r1; description := JUndefined; chapterId := JUndefined;
       timeLimit := JUndefined |} r2) Hne).
  simpl in HU. rewrite lookup_insert_ne, lookup_insert_eq in HU by done.
  specialize (HU H1 eq_refl). unfold matches, or in HU. simpl in HU.
  rewrite Ht, Hrefl, Hch, Hrefl in HU. discriminate.
Qed.

End Handlers.

Section ReadHandlers.

Variable pk_of : JsValue -> option Z.
Variable col_eq : JsValue -> JsValue -> bool.
Variable rejects : OrmCall -> DB -> bool.
Variable where_number : JsValue -> option Z -> bool.
Variable rejects_read : ReadCall -> DB -> bool.
Variable Q : Type.
Variable questions_of : Z -> list Q.

Abbreviation getAllQuizzes := (getAllQuizzes pk_of rejects_read Q).
Abbreviation getQuizzesByChapter := (getQuizzesByChapter where_number rejects_read Q).
Abbreviation getQuizById := (getQuizById pk_of rejects_read Q questions_of).

(** X9. When the mapper answers, [getAllQuizzes] answers 200 with every
    stored quiz exactly once, each with the id and name of the chapter it
    is joined with; [getQuizzesByChapter] answers 200 with exactly the
    stored quizzes whose [chapter_id] matches [parseInt(chapterId)], each
    once. *)
Theorem quiz_listings (chapterId : string) (db : DB) :
  (forall c, rejects_read c db = false) ->
  (exists rows,
     getAllQuizzes db = QuizList 200 rows /\
     NoDup (map joined_quiz rows) /\
     (forall k r, (k, r) ∈ map joined_quiz rows <-> quizzes db !! k = Some r) /\
     Forall (fun row => joined_chapter row
                        = id_and_name <$> chapter_of pk_of (joined_quiz row).2 db) rows) /\
  (exists rows,
     getQuizzesByChapter chapterId db = QuizPlain 200 rows /\
     NoDup rows /\
     (forall k r, (k, r) ∈ rows <->
        quizzes db !! k = Some r /\
        where_number (chapter_id r) (JS.parseInt chapterId) = true)).
Proof.
  intros Hok. split.
  - eexists. unfold QuizReads.getAllQuizzes. rewrite Hok. split; [reflexivity|].
    rewrite map_map. simpl. rewrite map_id.
    split; [apply NoDup_map_to_list|]. split.
    + intros k r. apply elem_of_map_to_list.
    + apply Forall_forall. intros row Hrow. apply list_elem_of_In, in_map_iff in Hrow.
      by destruct Hrow as (q & <- & _).
  - eexists. unfold QuizReads.getQuizzesByChapter. rewrite Hok. split; [reflexivity|].
    split.
    + apply NoDup_ListNoDup, List.NoDup_filter, NoDup_ListNoDup, NoDup_map_to_list.
    + intros k r. rewrite list_elem_of_In, filter_In, <- list_elem_of_In.
      by rewrite elem_of_map_to_list.
Qed.

Lemma chapter_of_found (r : QuizRow) (db : DB) :
  is_Some (find_chapter pk_of (chapter_id r) db) -> is_Some (chapter_of pk_of r db).
Proof.
  unfold find_chapter, chapter_of. destruct (pk_of (chapter_id r)) as [k|]; simpl.
  - intros [c ->]. simpl. eauto.
  - intros [c Hc]. discriminate.
Qed.

(** X10. When the mapper answers: [getQuizById] answers 404 'Quiz not
    found' if no quiz is stored under the id; after [createQuiz] answered
    201 it serves, under the id of that answer, the created row with its
    chapter joined; and after [deleteQuiz] answered 200 it answers 404 for
    that id. *)
Theorem quiz_served_until_deleted (id : string) (b : Body) (now : Z) (db : DB) :
  (forall c d, rejects c d = false) -> (forall c d, rejects_read c d = false) ->
  (no_quiz id db -> getQuizById id db = ReadMessage 404 "Quiz not found") /\
  (status (createQuiz pk_of col_eq rejects b now db).1 = 201 ->
   exists k row chapter,
     quiz (createQuiz pk_of col_eq rejects b now db).1 = Some (k, row) /\
     getQuizById (JS.toString k) (createQuiz pk_of col_eq rejects b now db).2 =
       QuizDetail 200 {| joined_quiz := (k, row); joined_chapter := Some chapter |}
                  (questions_of k)) /\
  (status (deleteQuiz rejects id db).1 = 200 ->
   getQuizById id (deleteQuiz rejects id db).2 = ReadMessage 404 "Quiz not found").
Proof.
  intros Hok Hokr. split; [|split].
  - intros Hno. apply QuizControllerFacts.find_quiz_None in Hno.
    unfold QuizReads.getQuizById. by rewrite Hokr, Hno.
  - intros Hst.
    destruct (createQuiz_cases pk_of col_eq rejects b now db)
      as [H | [H | [H | (Hc & _ & H)]]];
      cbv zeta in H; rewrite H in Hst |- *; try discriminate. clear Hst H. simpl.
    set (k := fresh (dom (quizzes db))).
    set (row := {| name := title b; remarks := description b; chapter_id := chapterId b;
                   date_of_quiz := now; time_duration := or (timeLimit b) (JStr "00:30") |}).
    destruct (chapter_of_found row db Hc) as [chapter Hch].
    exists k, row, chapter. split; [done|].
    unfold QuizReads.getQuizById. rewrite Hokr, NumeralFacts.parseInt_decimal.
    unfold find_quiz. simpl. rewrite lookup_insert_eq. simpl.
    unfold chapter_of in *. simpl in *. by rewrite Hch.
  - intros Hst.
    destruct (deleteQuiz_cases rejects id db) as [H | [H | (k & old & Hid & _ & H)]];
      rewrite H in Hst |- *; try discriminate. simpl.
    unfold QuizReads.getQuizById. rewrite Hokr, Hid.
    unfold find_quiz. simpl. by rewrite lookup_delete_eq.
Qed.

End ReadHandlers.

Lemma sample_integrity : chapter_integrity number_key sample_db.
Proof.
  intros k r Hk. unfold sample_db in Hk. simpl in Hk.
  apply lookup_singleton_Some in Hk as [<- <-]. by eexists.
Qed.



Lemma same_value_refl (x : JsValue) : same_value x x = true.
Proof. unfold same_value. by apply bool_decide_eq_true. Qed.

Lemma always_answers (c : OrmCall) (d : DB) : never_rejects c d = false.
Proof. reflexivity. Qed.

Lemma sample_deleted :
  deleteQuiz never_rejects "7" sample_db =
    (json 200 "Quiz deleted successfully",
     {| chapters := chapters sample_db; quizzes := delete 7 (quizzes sample_db) |}).
Proof. by apply (deleteQuiz_found never_rejects "7" sample_db 7 sample_row). Qed.

Lemma deleteQuiz_removes_witness :
  (deleteQuiz never_rejects "7" sample_db).1 = json 200 "Quiz deleted successfully".
Proof.
  exact (proj1 (deleteQuiz_removes number_key never_rejects "7" empty_body sample_db 7
                  sample_row always_answers eq_refl eq_refl)).
Defined.

Lemma updateQuiz_overwrites_witness :
  exists new,
    quizzes (updateQuiz number_key never_rejects "7" rename_to_sets sample_db).2 !! 7
      = Some new /\ name new = JStr "Sets".
Proof.
  destruct (updateQuiz_overwrites number_key never_rejects "7" rename_to_sets sample_db 7
              sample_row (fun c => eq_refl) eq_refl eq_refl ltac:(discriminate))
    as (new & _ & Hn & Ht & _).
  exists new. split; [exact Hn | exact (Ht eq_refl)].
Defined.

Lemma chapter_integrity_kept_witness :
  chapter_integrity number_key (updateQuiz number_key never_rejects "7" rename_to_sets
                                           sample_db).2.
Proof.
  exact (proj1 (proj2 (chapter_integrity_kept number_key same_value never_rejects "7"
                         rename_to_sets 0 sample_db sample_integrity))).
Defined.


Lemma updateQuiz_can_duplicate_witness :
  ~ unique_titles same_value
      (updateQuiz number_key never_rejects (JS.toString 8)
         {| title := JStr "Algebra"; description := JUndefined; chapterId := JUndefined;
            timeLimit := JUndefined |} two_quizzes).2.
Proof.
  exact (proj2 (updateQuiz_can_duplicate number_key same_value never_rejects two_quizzes
                  7 8 sample_row _ (fun c => eq_refl) same_value_refl ltac:(discriminate)
                  eq_refl eq_refl eq_refl eq_refl)).
Defined.

Lemma rename_creates :
  status (createQuiz number_key same_value never_rejects
            {| title := JStr "Sets"; description := JNull; chapterId := JNum 1;
               timeLimit := JUndefined |} 0 sample_db).1 = 201.
Proof.
  destruct (createQuiz_cases number_key same_value never_rejects
              {| title := JStr "Sets"; description := JNull; chapterId := JNum 1;
                 timeLimit := JUndefined |} 0 sample_db)
    as [H | [H | [H | (_ & _ & H)]]]; cbv zeta in H; rewrite H; try done;
    exfalso; revert H; unfold QuizController.createQuiz, try_catch, Chapter_findByPk,
      Quiz_findOne, Quiz_create, call, mbind, mret, Orm_bind, Orm_ret; simpl;
    unfold find_one; rewrite map_to_list_singleton; simpl; discriminate.
Qed.

Lemma create_then_delete_witness :
  exists k row,
    quiz (createQuiz number_key same_value never_rejects
            {| title := JStr "Sets"; description := JNull; chapterId := JNum 1;
               timeLimit := JUndefined |} 0 sample_db).1 = Some (k, row) /\
    time_duration row = JStr "00:30".
Proof.
  destruct (create_then_delete number_key same_value never_rejects
              {| title := JStr "Sets"; description := JNull; chapterId := JNum 1;
                 timeLimit := JUndefined |} 0 sample_db always_answers rename_creates)
    as (k & row & Hq & _ & Hrow & _).
  exists k, row. split; [exact Hq|].
  destruct (createQuiz_cases number_key same_value never_rejects
              {| title := JStr "Sets"; description := JNull; chapterId := JNum 1;
                 timeLimit := JUndefined |} 0 sample_db)
    as [H | [H | [H | (_ & _ & H)]]]; cbv zeta in H; rewrite H in Hq; try discriminate.
  simpl in Hq. by injection Hq as _ <-.
Defined.

Lemma quiz_listings_witness :
  exists rows,
    getQuizzesByChapter number_matches never_rejects_read unit "1" sample_db
      = QuizPlain 200 rows /\ (7, sample_row) ∈ rows.
Proof.
  destruct (quiz_listings number_key number_matches never_rejects_read unit "1" sample_db
              (fun c => eq_refl)) as (_ & rows & Hrows & _ & Hin).
  exists rows. split; [exact Hrows|]. apply Hin. split; reflexivity.
Defined.

Lemma quiz_served_until_deleted_witness :
  getQuizById number_key never_rejects_read unit no_questions "7"
    (deleteQuiz never_rejects "7" sample_db).2 = ReadMessage 404 "Quiz not found".
Proof.
  destruct (quiz_served_until_deleted number_key same_value never_rejects
              never_rejects_read unit no_questions "7" empty_body 0 sample_db
              always_answers (fun c d => eq_refl)) as (_ & _ & H).
  apply H. by rewrite sample_deleted.
Defined.

End QuizControllerMore.

Module AuthMore.
Import AuthContext.

(** X23. A rejected login returns no user and records the server's message,
    or 'Login failed' when there is none or it is empty; the token, the
    user, the stored token and the answer of [isAdmin()] stay as they were.
    A successful login clears an earlier error. *)
Theorem login_rejected (s : AuthState) (message : option string) :
  let r := login (LoginRejected message) s in
  r.2 = None /\
  (message = None \/ message = Some "" -> error r.1 = Some "Login failed") /\
  (forall m, message = Some m -> m <> "" -> error r.1 = Some m) /\
  token r.1 = token s /\ user r.1 = user s /\
  localStorage r.1 = localStorage s /\ isAdmin r.1 = isAdmin s /\
  (forall newToken userData, error (login (LoginOk newToken userData) s).1 = None).
Proof.
  simpl. split; [done|]. split; [by intros [-> | ->]|].
  split; [|done]. intros m -> Hm. by destruct m.
Qed.

(** X24. The session survives a reload through [localStorage] alone. After
    a login the provider starts again with the stored token, unless it is
    empty, and with no user, so [isAdmin()] is false until the profile is
    fetched: a fetched profile becomes the user, a failed fetch logs out
    and removes the stored token.  After a logout it starts with no token
    and stays logged out. *)
Theorem session_after_reload
    (s : AuthState) (newToken : string) (userData : User) (profile : option User) :
  let stored := localStorage (login (LoginOk newToken userData) s).1 in
  let cleared := localStorage (logout s) in
  (token (init stored) = (if decide (newToken = "") then None else Some newToken) /\
   user (init stored) = None /\ isAdmin (init stored) = false /\
   loading (init stored) = true) /\
  (newToken <> "" ->
   loading (initializeAuth profile (init stored)) = false /\
   match profile with
   | Some u =>
       user (initializeAuth profile (init stored)) = Some u /\
       token (initializeAuth profile (init stored)) = Some newToken /\
       (isAdmin (initializeAuth profile (init stored)) = true <-> role u = "admin")
   | None =>
       user (initializeAuth profile (init stored)) = None /\
       token (initializeAuth profile (init stored)) = None /\
       localStorage (initializeAuth profile (init stored)) !! "token" = None
   end) /\
  (token (init cleared) = None /\
   initializeAuth profile (init cleared) =
     {| user := None; token := None; loading := false; error := None;
        localStorage := cleared |}).
Proof.
  simpl. split; [|split].
  - unfold init. simpl. rewrite lookup_insert_eq.
    destruct newToken; simpl; repeat split; done.
  - intros Hne. unfold init, initializeAuth. simpl. rewrite lookup_insert_eq.
    destruct newToken as [|c t]; [done|]. simpl.
    destruct profile as [u|]; simpl.
    + repeat split; try done; unfold isAdmin; simpl;
        by rewrite bool_decide_eq_true.
    + repeat split. apply lookup_delete_eq.
  - unfold init, initializeAuth. simpl. by rewrite lookup_delete_eq.
Qed.

(** X25. The provider touches one key of [localStorage]: whatever [login]
    is answered, and through [logout] and [initializeAuth], every key other
    than 'token' keeps its value. *)
Theorem other_keys_untouched
    (s : AuthState) (r : LoginResponse) (profile : option User) (k : string) :
  k <> "token" ->
  localStorage (login r s).1 !! k = localStorage s !! k /\
  localStorage (logout s) !! k = localStorage s !! k /\
  localStorage (initializeAuth profile s) !! k = localStorage s !! k.
Proof.
  intros Hk. split; [|split].
  - destruct r; simpl; [by rewrite lookup_insert_ne | done].
  - simpl. by rewrite lookup_delete_ne.
  - unfold initializeAuth. destruct (token s) as [[|c t]|]; try done.
    destruct profile; simpl; [done | by rewrite lookup_delete_ne].
Qed.

Lemma other_keys_untouched_witness :
  localStorage (logout (init {[ "theme" := "dark"; "token" := "abc" ]})) !! "theme"
    = Some "dark".
Proof.
  destruct (other_keys_untouched (init {[ "theme" := "dark"; "token" := "abc" ]})
              (LoginRejected None) None "theme" ltac:(discriminate)) as (_ & H & _).
  rewrite H. reflexivity.
Defined.

End AuthMore.

Module RouteFacts.
Import App Routes.

(** X26. Every route of the table except [/login], [/register] and the
    default route is wrapped in [PrivateRoute] or [AdminRoute]; the default
    route redirects to [/login]; and no path is declared twice. *)
Theorem pages_need_a_session :
  Forall (fun r => guarded r = true \/ path r ∈ ["/login"; "/register"; "/"]) routes /\
  Forall (fun r => path r = "/" -> guard r = NavigateTo "/login") routes /\
  NoDup (map path routes).
Proof.
  split; [|split].
  - unfold routes. repeat constructor; simpl; auto; right; set_solver.
  - unfold routes. repeat constructor; simpl; try discriminate; done.
  - apply (bool_decide_unpack _). vm_compute. reflexivity.
Qed.

End RouteFacts.

Module TakeQuizMore.
Import TakeQuiz TakeQuizView TakeQuizFacts.

Lemma deref_fresh (h1 h2 : list Answer) :
  deref (h1 ++ h2)%list (seq (length h1) (length h2)) = h2.
Proof.
  revert h1. induction h2 as [|a h2 IH]; intros h1; [done|].
  unfold deref in *. simpl.
  rewrite lookup_app_r, Nat.sub_diag by lia. simpl. f_equal.
  specialize (IH (h1 ++ [a])%list). rewrite <- app_assoc, length_app in IH. simpl in IH.
  by rewrite Nat.add_1_r in IH.
Qed.

Lemma deref_all (h : list Answer) : deref h (seq 0 (length h)) = h.
Proof. apply (deref_fresh [] h). Qed.

Lemma deref_elem (h : list Answer) (arr : list loc) (a : Answer) :
  a ∈ deref h arr -> a ∈ h.
Proof.
  unfold deref. rewrite list_elem_of_omap. intros (l & _ & Hl).
  by apply list_elem_of_lookup_2 in Hl.
Qed.

Lemma initialAnswers_ids (qs : list Question) :
  map question_id (initialAnswers qs) = map q_id qs.
Proof. unfold initialAnswers. rewrite map_map. reflexivity. Qed.

Lemma initialAnswers_unanswered (qs : list Question) (i : nat) (a : Answer) :
  initialAnswers qs !! i = Some a -> selected_option a = -1.
Proof.
  unfold initialAnswers. intros H. apply list_elem_of_lookup_2, list_elem_of_In in H.
  apply in_map_iff in H as (q & <- & _). reflexivity.
Qed.

(** The events that neither load nor move within the question page. *)
Lemma control_frame id (e : Event) (s : State) :
  browsing e = false -> (forall r, e <> FetchDone r) ->
  let s' := step id e s in
  heap s' = heap s /\ answers s' = answers s /\
  currentQuestionIndex s' = currentQuestionIndex s /\
  selectedOption s' = selectedOption s /\ questions s' = questions s /\
  quiz s' = quiz s /\ loading s' = loading s.
Proof.
  intros Hb Hf. simpl. unfold step.
  destruct (timer_effect_other s (handle id e s)) as [t ->].
  destruct e; try discriminate; try (by destruct s).
  - by destruct (Hf r).
  - simpl. unfold tick. destruct (timerRef s); [|by destruct s].
    destruct (timeLeft s <=? 1); by destruct s.
Qed.

Lemma init_inv2 id : Inv2 id init.
Proof. split; simpl; done. Qed.

Lemma request_about id (s : State) (endTime : Z) :
  map question_id (heap s) = map q_id (questions s) ->
  about_the_quiz (quizId id) (questions s) (request id (answers s) endTime s).
Proof.
  intros Hids. split; [done|]. simpl. apply Forall_forall. intros a Ha.
  apply list_elem_of_In, filter_In in Ha as [Ha Hans]. apply list_elem_of_In in Ha.
  split.
  - apply deref_elem in Ha. rewrite <- Hids.
    apply list_elem_of_In, in_map, list_elem_of_In, Ha.
  - unfold answered in Hans. apply negb_true_iff in Hans. lia.
Qed.

Lemma browsing_inv2 id (s : State) (e : Event) :
  browsing e = true -> Inv s -> Inv2 id s -> enabled e s = true ->
  Inv2 id (step id e s).
Proof.
  intros Hb HI HJ Hen.
  pose proof HI as [Ht Hl Ha Hh Hi He Hs Hp].
  pose proof HJ as [Jr Jid Jl Jst Jlim Jsh Jreq Jpe].
  pose proof (browsing_mounted e s Hb Hen) as Hm.
  destruct (browsing_frame id e s Hb)
    as (F1 & F2 & F3 & F4 & F5 & F6 & F7 & F8 & F9 & F10 & F11 & F12 & F13 & F14).
  unfold step. rewrite timer_effect_same by congruence.
  split.
  - rewrite F1, F2, F3, F4, F5. done.
  - rewrite F8. destruct e; try discriminate; simpl; try done.
    + rewrite <- Jid. clear. destruct s. unfold handleOptionSelect, throw_TypeError. simpl.
      destruct (index _ _) as [l|]; [|done].
      match goal with |- context [match ?x with _ => _ end] =>
        destruct x as [a|] eqn:Hl' end; [|done]. simpl.
      change map with (@fmap list _). rewrite list_fmap_insert.
      apply list_insert_id. rewrite list_lookup_fmap. unfold loc in *. by rewrite Hl'.
    + unfold goToNextQuestion, throw_TypeError. by repeat case_match.
    + unfold goToPreviousQuestion, throw_TypeError. by repeat case_match.
  - rewrite F6, F14, F11. done.
  - rewrite F1, F11. done.
  - rewrite F11, F10. done.
  - destruct e; try discriminate; simpl.
    + (* an option *)
      clear. destruct s. unfold handleOptionSelect, throw_TypeError, read. simpl.
      destruct (index _ _) as [l|] eqn:Hix; simpl; rewrite ?Hix; simpl; [|done].
      unfold loc in *.
      match goal with |- context [match ?x with _ => _ end] =>
        destruct x as [a|] eqn:Hl' end; simpl; rewrite ?Hix; simpl; [|by rewrite Hl'].
      intros a'. rewrite list_lookup_insert_eq by (by apply lookup_lt_Some in Hl').
      intros [= <-]. unfold shown_option. simpl.
      destruct (Z.eqb_spec optionId (-1)) as [-> | _]; auto.
    + (* Next *)
      unfold goToNextQuestion, throw_TypeError.
      destruct (currentQuestionIndex s <? Z.of_nat (length (questions s)) - 1);
        [|exact Jsh].
      destruct (read s (answers s) (currentQuestionIndex s + 1)) as [a|] eqn:Hr;
        unfold read in *; simpl; rewrite Hr; [|done].
      intros a' [= <-]. by left.
    + (* Previous *)
      unfold goToPreviousQuestion, throw_TypeError.
      destruct (0 <? currentQuestionIndex s); [|exact Jsh].
      destruct (read s (answers s) (currentQuestionIndex s - 1)) as [a|] eqn:Hr;
        unfold read in *; simpl; rewrite Hr; [|done].
      intros a' [= <-]. by left.
    + exact Jsh.
  - rewrite F12, F8. done.
  - rewrite F12, F13. done.
Qed.

Lemma step_inv2 id (s : State) (e : Event) :
  Inv s -> Inv2 id s -> enabled e s = true -> Inv2 id (step id e s).
Proof.
  intros HI HJ Hen.
  destruct (browsing e) eqn:Hb; [by apply browsing_inv2|].
  pose proof HI as [Ht Hl Ha Hh Hi He Hs Hp].
  pose proof HJ as [Jr Jid Jl Jst Jlim Jsh Jreq Jpe].
  pose proof (enabled_mounted e s Hen) as Hm.
  destruct e; try discriminate.
  { (* the fetch *)
    unfold enabled in Hen. apply andb_prop in Hen as [_ Hen].
    rewrite (Hl Hen).
    destruct r; split; simpl; try done; try lia.
    - apply initialAnswers_ids.
    - intros q Hq _. injection Hq as <-. lia.
    - intros a. unfold read, index. simpl. change (Z.to_nat 0) with 0%nat.
      destruct questionsData; simpl; [done|]. intros [= <-]. by left.
    - intros q Hq _. injection Hq as <-. lia. }
  all: unfold enabled in Hen; simpl in Hm; try apply andb_prop in Hen as [_ Hen].
  - (* Start Quiz *)
    unfold on_page, view in Hen.
    destruct (loading s) eqn:Hld; [done|].
    destruct (truthy_error (error s)) eqn:Herr; [done|].
    destruct (quizStarted s) eqn:Hst; [done|].
    destruct (Hp eq_refl) as [Hfi Hpe].
    destruct s; simpl in *. subst.
    unfold step, timer_effect, handle, startQuiz, mounted; simpl.
    split; simpl in *; intros; simplify_eq; try done; try lia; eauto.
  - (* Back to Quizzes *)
    unfold on_page, view in Hen.
    destruct (loading s) eqn:Hld; [done|].
    destruct s; simpl in *. subst.
    unfold step, timer_effect, handle, navigate, mounted; simpl.
    split; simpl in *; intros; simplify_eq; try done; try lia; eauto.
  - (* Finish Quiz *)
    unfold on_page, view in Hen.
    destruct (loading s) eqn:Hld; [done|].
    destruct (truthy_error (error s)) eqn:Herr; [done|].
    destruct (quizStarted s) eqn:Hst; [|done].
    pose proof (request_about id s now Jid) as Hreq.
    destruct s; simpl in *. subst.
    unfold step, timer_effect, handle, finishQuiz, mounted; simpl.
    repeat case_match; split; simpl in *; intros; simplify_eq; try done; try lia; eauto.
  - (* a tick *)
    apply bool_decide_eq_true in Hen as [c Hc].
    destruct (Ht c Hc) as (-> & Hst & Hfi & _).
    assert (Hld : loading s = false).
    { destruct (loading s) eqn:E; [|done]. rewrite (Hl eq_refl) in Hst. done. }
    pose proof (request_about id (clearInterval s) now Jid) as Hreq.
    destruct s; simpl in *. subst.
    unfold step, timer_effect, handle, tick, finishQuiz, mounted; simpl.
    repeat case_match; split; simpl in *; intros; simplify_eq; try done; try lia; eauto.
    all: try (specialize (Jlim _ eq_refl); lia).
  - (* the request resolved *)
    assert (Hld : loading s = false).
    { destruct (loading s) eqn:E; [|done]. rewrite (Hl eq_refl) in Hen. done. }
    apply bool_decide_eq_true in Hen.
    destruct s; simpl in *. subst.
    unfold step, timer_effect, handle, submit_resolved, navigate, mounted; simpl.
    split; simpl in *; intros; simplify_eq; try done; try lia; eauto.
  - (* the request was rejected *)
    assert (Hld : loading s = false).
    { destruct (loading s) eqn:E; [|done]. rewrite (Hl eq_refl) in Hen. done. }
    apply bool_decide_eq_true in Hen.
    destruct s; simpl in *. subst.
    unfold step, timer_effect, handle, submit_rejected, mounted; simpl.
    repeat case_match; split; simpl in *; intros; simplify_eq; try done; try lia; eauto.
    all: apply Jr; try done; destruct quizFinished0; try done.
    all: rewrite bool_decide_eq_true_2 in * by done; simpl in *; done.
Qed.

Lemma reachable_inv2 id (s : State) : reachable id s -> Inv2 id s.
Proof.
  induction 1 as [|s e Hr IH Hen]; [apply init_inv2|].
  apply step_inv2; [by apply (reachable_inv id) | done | done].
Qed.

(** ** What the page keeps *)

Lemma current_answers_heap id (s : State) : reachable id s -> current_answers s = heap s.
Proof.
  intros Hr. apply reachable_inv in Hr as [_ _ Ha _ _ _ _ _].
  unfold current_answers. rewrite Ha. apply deref_all.
Qed.

Lemma answers_follow_questions_aux id (s : State) :
  reachable id s ->
  map question_id (current_answers s) = map q_id (questions s) /\
  length (current_answers s) = length (questions s).
Proof.
  intros Hr. rewrite (current_answers_heap id s Hr).
  pose proof (reachable_inv id s Hr) as [_ _ _ Hh _ _ _ _].
  pose proof (reachable_inv2 id s Hr) as [_ Jid _ _ _ _ _ _]. done.
Qed.

(** X11. In every reachable state the [answers] array has one answer for
    each question, in the order of the questions and with their ids. *)
Theorem answers_follow_questions id (s : State) :
  reachable id s ->
  map question_id (current_answers s) = map q_id (questions s) /\
  length (current_answers s) = length (questions s).
Proof. apply answers_follow_questions_aux. Qed.

Lemma index_seq (n : nat) (i : Z) :
  0 <= i < Z.of_nat n -> index (seq 0 n) i = Some (Z.to_nat i).
Proof.
  intros Hi. unfold index. destruct (Z.ltb_spec i 0); [lia|].
  rewrite lookup_seq_lt by lia. done.
Qed.

Lemma index_seq_inv (n : nat) (i : Z) (l : loc) :
  index (seq 0 n) i = Some l -> l = Z.to_nat i /\ 0 <= i < Z.of_nat n.
Proof.
  unfold index. destruct (Z.ltb_spec i 0); [done|].
  intros Hix. apply lookup_seq in Hix as [-> Hix]. simpl. lia.
Qed.

(** X12. Selecting an offered option writes it into the answer of the
    current question, which keeps the id of that question, and shows it as
    selected; the answers of the other questions and the index stay as
    they were.  The answer counts as given unless the option's id is -1. *)
Theorem option_recorded id (s : State) (optionId : Z) :
  reachable id s -> enabled (ClickOption optionId) s = true ->
  let s' := step id (ClickOption optionId) s in
  exists q,
    index (questions s) (currentQuestionIndex s) = Some q /\
    read s' (answers s') (currentQuestionIndex s)
      = Some {| question_id := q_id q; selected_option := optionId |} /\
    selectedOption s' = Some optionId /\
    currentQuestionIndex s' = currentQuestionIndex s /\
    (forall i, i <> currentQuestionIndex s ->
       read s' (answers s') i = read s (answers s) i) /\
    (answered {| question_id := q_id q; selected_option := optionId |} = true
       <-> optionId <> -1).
Proof.
  intros Hr Hen. simpl.
  pose proof (reachable_inv id s Hr) as [_ _ Ha Hh _ _ _ _].
  pose proof (reachable_inv2 id s Hr) as [_ Jid _ _ _ _ _ _].
  pose proof (enabled_mounted _ _ Hen) as Hm. simpl in Hm.
  assert (Hoff : offered optionId s = true).
  { unfold enabled in Hen. apply andb_prop in Hen as [_ Hen].
    by apply andb_prop in Hen as [_ Hen]. }
  pose proof (offered_in_range _ _ Hoff) as Hrange.
  destruct (index (questions s) (currentQuestionIndex s)) as [q|] eqn:Hq.
  2: { unfold offered in Hoff. by rewrite Hq in Hoff. }
  exists q. split; [done|].
  assert (Hqn : questions s !! Z.to_nat (currentQuestionIndex s) = Some q).
  { unfold index in Hq. by destruct (currentQuestionIndex s <? 0). }
  assert (Hlt : (Z.to_nat (currentQuestionIndex s) < length (heap s))%nat) by lia.
  destruct (lookup_lt_is_Some_2 _ _ Hlt) as [a Hat].
  assert (Haid : question_id a = q_id q).
  { apply (f_equal (fun l => l !! Z.to_nat (currentQuestionIndex s))) in Jid.
    change map with (@fmap list _) in Jid.
    rewrite !list_lookup_fmap, Hat, Hqn in Jid. by injection Jid. }
  unfold step. rewrite timer_effect_same;
    [| by destruct (browsing_frame id (ClickOption optionId) s eq_refl) as (_ & _ & -> & _)
     | by destruct (browsing_frame id (ClickOption optionId) s eq_refl) as (-> & _)
     | by destruct (browsing_frame id (ClickOption optionId) s eq_refl) as (_ & -> & _)].
  simpl. unfold handleOptionSelect, throw_TypeError.
  replace (answers (set_selectedOption (Some optionId) s)) with (answers s) by (by destruct s).
  replace (currentQuestionIndex (set_selectedOption (Some optionId) s))
    with (currentQuestionIndex s) by (by destruct s).
  replace (heap (set_selectedOption (Some optionId) s)) with (heap s) by (by destruct s).
  assert (Hix : index (seq 0 (length (heap s))) (currentQuestionIndex s)
                 = Some (Z.to_nat (currentQuestionIndex s))) by (apply index_seq; lia).
  unfold loc in *. rewrite Ha, Hix, Hat, Haid.
  unfold read. destruct s; simpl in *. subst.
  unfold loc in *. rewrite Hix. simpl.
  split; [by rewrite list_lookup_insert_eq|]. split; [done|]. split; [done|]. split.
  - intros i Hi. destruct (index _ i) as [l|] eqn:Hl; [|done]. simpl.
    apply index_seq_inv in Hl as [-> Hl].
    apply list_lookup_insert_ne. lia.
  - unfold answered. simpl. rewrite negb_true_iff, Z.eqb_neq. done.
Qed.

(** X13. On every reachable page the option shown as selected is the one
    stored for the current question, and none is shown when the question
    is unanswered, unless an option with id -1 was just selected. *)
Theorem selection_shown id (s : State) (a : Answer) :
  reachable id s ->
  read s (answers s) (currentQuestionIndex s) = Some a ->
  selectedOption s <> Some (-1) ->
  selectedOption s = (if selected_option a =? -1 then None else Some (selected_option a)).
Proof.
  intros Hr Ha Hne. apply (reachable_inv2 id) in Hr as [_ _ _ _ _ Jsh _ _].
  by destruct (Jsh a Ha).
Qed.

(** X14. In every reachable state the interval is running exactly when the
    page is mounted and the quiz is in progress. *)
Theorem timer_runs_in_progress id (s : State) :
  reachable id s ->
  (is_Some (timerRef s) <-> phase s = InProgress /\ navigated s = None).
Proof.
  intros Hr.
  pose proof (reachable_inv id s Hr) as [Ht _ _ _ _ _ _ _].
  pose proof (reachable_inv2 id s Hr) as [Jr _ _ _ _ _ _ _].
  unfold phase. split.
  - intros [c Hc]. destruct (Ht c Hc) as (_ & -> & -> & ->). done.
  - intros [Hph Hn]. destruct (quizFinished s) eqn:Hf; [done|].
    destruct (quizStarted s) eqn:Hs; [|done]. rewrite Jr; done.
Qed.

(** Every reachable state but the first comes from the answer to the
    fetch. *)
Lemma reachable_loaded id (s : State) :
  reachable id s -> s = init \/ exists r, follows id (step id (FetchDone r) init) s.
Proof.
  induction 1 as [|s e Hr [-> | [r IH]] Hen].
  - by left.
  - right. destruct e; try discriminate. exists r. constructor.
  - right. exists r. by constructor.
Qed.

Lemma follows_reachable id (s0 s : State) :
  reachable id s0 -> follows id s0 s -> reachable id s.
Proof. intros H0. induction 1; [done | by constructor]. Qed.

(** After a failed load the page can only be left. *)
Lemma failed_load_stuck id (r : FetchResult) (s : State) :
  (forall quizData questionsData, r <> Fetched quizData questionsData) ->
  follows id (step id (FetchDone r) init) s ->
  s = step id (FetchDone r) init \/ s = step id ClickBack (step id (FetchDone r) init).
Proof.
  intros Hf. induction 1 as [|s e Hfo [-> | ->] Hen]; [by left | |];
    (destruct r as [quizData questionsData| |quizData];
     [by destruct (Hf quizData questionsData)| |]);
    destruct e; vm_compute in Hen; try discriminate Hen; right; reflexivity.
Qed.

(** What was loaded stays. *)
Lemma loaded_stays id (quizData : Quiz) (questionsData : list Question) (s : State) :
  follows id (step id (FetchDone (Fetched quizData questionsData)) init) s ->
  quiz s = Some quizData /\ questions s = questionsData.
Proof.
  intros Hfo.
  assert (H0 : reachable id (step id (FetchDone (Fetched quizData questionsData)) init)).
  { by constructor; [constructor|]. }
  induction Hfo as [|s e Hfo [IHq IHs] Hen]; [done|].
  destruct (step_fields id e s) as (_ & _ & _ & _ & _ & _ & _ & _ & -> & _ & ->).
  destruct (browsing e) eqn:Hb.
  { destruct (browsing_frame id e s Hb)
      as (_ & _ & _ & _ & _ & _ & _ & -> & _ & _ & -> & _). done. }
  destruct e; try discriminate; try (by destruct s).
  - (* a second answer to the fetch: the page is not loading *)
    pose proof (reachable_inv id s (follows_reachable id _ s H0 Hfo))
      as [_ Hl _ _ _ _ _ _].
    unfold enabled in Hen. apply andb_prop in Hen as [_ Hen].
    rewrite (Hl Hen) in IHq. done.
  - simpl. unfold tick.
    destruct (timerRef s); [destruct (timeLeft s <=? 1)|]; by destruct s.
Qed.

(** X15. The quiz can only be started once both fetches have succeeded:
    every reachable state with the quiz started comes from the state that
    the answer to both fetches leaves, holds the quiz and the questions of
    that answer, is not loading and has the start time recorded; and in no
    state that comes from a failed fetch is the quiz started. *)
Theorem started_after_load id (s : State) :
  reachable id s -> quizStarted s = true ->
  (exists quizData questionsData,
     follows id (step id (FetchDone (Fetched quizData questionsData)) init) s /\
     quiz s = Some quizData /\ questions s = questionsData /\
     loading s = false /\ is_Some (startTime s)) /\
  (forall r s',
     (forall quizData questionsData, r <> Fetched quizData questionsData) ->
     follows id (step id (FetchDone r) init) s' -> quizStarted s' = false).
Proof.
  intros Hr Hst.
  assert (Hfail : forall r s',
             (forall quizData questionsData, r <> Fetched quizData questionsData) ->
             follows id (step id (FetchDone r) init) s' -> quizStarted s' = false).
  { intros r s' Hf Hfo.
    destruct (failed_load_stuck id r s' Hf Hfo) as [-> | ->];
      destruct r as [quizData questionsData| |quizData]; try done;
      by destruct (Hf quizData questionsData). }
  split; [|exact Hfail].
  pose proof (reachable_inv id s Hr) as [_ Hl _ _ _ _ Hs _].
  destruct (reachable_loaded id s Hr) as [-> | [r Hfo]]; [done|].
  destruct r as [quizData questionsData| |quizData].
  - exists quizData, questionsData.
    destruct (loaded_stays id quizData questionsData s Hfo) as [Hq Hqs].
    repeat split; try done; [|by auto].
    destruct (loading s) eqn:E; [|done]. rewrite (Hl eq_refl) in Hst. done.
  - rewrite (Hfail QuizFetchFailed s) in Hst; done.
  - rewrite (Hfail (QuestionsFetchFailed quizData) s) in Hst; done.
Qed.

(** X16. For a quiz whose [timeLimit] is not negative the time left never
    exceeds the limit in seconds. *)
Theorem time_left_within_limit id (s : State) (q : Quiz) :
  reachable id s -> quiz s = Some q -> 0 <= timeLimit q ->
  0 <= timeLeft s <= timeLimit q * 60.
Proof.
  intros Hr Hq Hlim. split.
  - apply (timeLeft_nonneg id s Hr). intros q' Hq'. congruence.
  - by apply (reachable_inv2 id s Hr).
Qed.

(** ** The timer, to the end *)

Lemma tick_goes_on id (s : State) (now : Z) :
  reachable id s -> phase s = InProgress -> navigated s = None -> 1 < timeLeft s ->
  enabled (Tick now) s = true /\
  phase (step id (Tick now) s) = InProgress /\
  navigated (step id (Tick now) s) = None /\
  timeLeft (step id (Tick now) s) = timeLeft s - 1 /\
  submitted (step id (Tick now) s) = submitted s /\
  heap (step id (Tick now) s) = heap s /\ answers (step id (Tick now) s) = answers s /\
  startTime (step id (Tick now) s) = startTime s.
Proof.
  intros Hr Hph Hn Hlt.
  pose proof (reachable_inv2 id s Hr) as [Jr _ _ _ _ _ _ _].
  unfold phase in Hph.
  destruct (quizFinished s) eqn:Hf; [done|]. destruct (quizStarted s) eqn:Hs; [|done].
  specialize (Jr Hn eq_refl eq_refl).
  assert (Hen : enabled (Tick now) s = true).
  { unfold enabled, mounted. rewrite Jr, Hn. done. }
  split; [done|].
  unfold step. simpl. unfold tick. rewrite Jr.
  destruct (Z.leb_spec (timeLeft s) 1); [lia|].
  rewrite timer_effect_same by (by destruct s).
  unfold phase. destruct s; simpl in *. subst. done.
Qed.

Lemma tick_ends id (s : State) (now : Z) :
  reachable id s -> phase s = InProgress -> navigated s = None -> timeLeft s <= 1 ->
  enabled (Tick now) s = true /\
  phase (step id (Tick now) s) = Finished /\
  timeLeft (step id (Tick now) s) = 0 /\
  submitted (step id (Tick now) s) = request id (answers s) now s :: submitted s.
Proof.
  intros Hr Hph Hn Hle.
  pose proof (reachable_inv2 id s Hr) as [Jr _ _ _ _ _ _ _].
  unfold phase in Hph.
  destruct (quizFinished s) eqn:Hf; [done|]. destruct (quizStarted s) eqn:Hs; [|done].
  specialize (Jr Hn eq_refl eq_refl).
  assert (Hen : enabled (Tick now) s = true).
  { unfold enabled, mounted. rewrite Jr, Hn. done. }
  split; [done|]. rewrite phase_step.
  destruct (step_fields id (Tick now) s) as (_ & _ & -> & -> & _).
  simpl. unfold tick. rewrite Jr.
  destruct (Z.leb_spec (timeLeft s) 1); [|lia]. by destruct s.
Qed.

Lemma request_same (id : option string) (c : list loc) (t : Z) (s s' : State) :
  heap s' = heap s -> startTime s' = startTime s -> request id c t s' = request id c t s.
Proof. intros Hh Hs. unfold request. by rewrite Hh, Hs. Qed.

(** X17. Left alone, a mounted quiz in progress with [n >= 1] seconds left
    is finished by exactly [n] ticks: each of the first [n - 1] takes a
    second off and sends nothing, and the last one sets the time to 0 and
    sends the one request, with the answers as they are. *)
Theorem time_runs_out id (times : list Z) (last : Z) (s : State) :
  reachable id s -> phase s = InProgress -> navigated s = None ->
  timeLeft s = Z.of_nat (S (length times)) ->
  let before := run id (ticks times) s in
  let after := run id (ticks (times ++ [last])) s in
  (phase before = InProgress /\ timeLeft before = 1 /\ submitted before = submitted s) /\
  (phase after = Finished /\ timeLeft after = 0 /\
   submitted after = request id (answers s) last s :: submitted s).
Proof.
  revert s. induction times as [|t times IH]; intros s Hr Hph Hn Hleft; simpl in *.
  - split; [by split|].
    destruct (tick_ends id s last Hr Hph Hn ltac:(lia)) as (Hen & ? & ? & ?).
    simpl in Hen. rewrite Hen. done.
  - destruct (tick_goes_on id s t Hr Hph Hn ltac:(lia))
      as (Hen & Hph' & Hn' & Hleft' & Hsub & Hh & Ha & Hst).
    pose proof Hen as Hen'. simpl in Hen'. rewrite Hen'.
    destruct (IH (step id (Tick t) s)) as [(? & ? & ?) (? & ? & ?)];
      [by constructor | done | done | lia |].
    split; [split; [done | split; [done | congruence]]|].
    split; [done|]. split; [done|].
    rewrite <- Hsub, <- Ha, <- (request_same id _ last s (step id (Tick t) s)) by done.
    done.
Qed.

(** X18. [finishQuiz] neither closes the confirmation nor disables the
    page: after Finish Quiz was clicked, and until the request is answered,
    it can be clicked again, and the second click sends a second request. *)
Theorem finish_twice id (s : State) (t1 t2 : Z) :
  reachable id s -> enabled (ClickFinish t1) s = true ->
  let s1 := step id (ClickFinish t1) s in
  let s2 := step id (ClickFinish t2) s1 in
  enabled (ClickFinish t2) s1 = true /\
  submitted s2 = request id (answers s) t2 s :: request id (answers s) t1 s :: submitted s /\
  pending s2 = S (S (pending s)) /\
  phase s1 = Finished /\ phase s2 = Finished.
Proof.
  intros Hr Hen. simpl.
  pose proof (enabled_mounted _ _ Hen) as Hm. simpl in Hm.
  unfold enabled, on_page, view, mounted in *.
  apply andb_prop in Hen as [_ Hen].
  destruct (loading s) eqn:Hl; [done|].
  destruct (truthy_error (error s)) eqn:He; [done|].
  destruct (quizStarted s) eqn:Hs; [|done]. simpl in Hen.
  destruct s; simpl in *. subst.
  unfold step, timer_effect, handle, finishQuiz, mounted, phase, request; simpl.
  destruct quizFinished0;
    repeat first [ rewrite bool_decide_eq_true_2 by done
                 | rewrite bool_decide_eq_false_2 by done
                 | rewrite He
                 | progress cbn ];
    done.
Qed.

(** X19. When either fetch fails the error page is shown with the message
    'Failed to load quiz. Please try again later.'; the only thing that can
    happen then is Back to Quizzes, which leaves for [/quizzes], and after
    that nothing happens to the component. *)
Theorem failed_load_dead_end id (r : FetchResult) (e : Event) :
  (forall quizData questionsData, r <> Fetched quizData questionsData) ->
  let s := step id (FetchDone r) init in
  error s = Some "Failed to load quiz. Please try again later." /\
  view s = ErrorPage /\ quizStarted s = false /\
  (enabled e s = true -> e = ClickBack) /\
  navigated (step id ClickBack s) = Some "/quizzes" /\
  enabled e (step id ClickBack s) = false.
Proof.
  intros Hr. destruct r as [quizData questionsData| |quizData];
    [by destruct (Hr quizData questionsData)| |];
    (repeat split; by destruct e).
Qed.

(** ** What the page shows *)

Lemma filter_split {A} (f : A -> bool) (l : list A) :
  (length (List.filter (fun a => negb (f a)) l) + length (List.filter f l))%nat = length l.
Proof.
  induction l as [|a l IH]; [done|]. simpl. destruct (f a); simpl; lia.
Qed.

(** X20. The counts of the confirmation add up: in every reachable state
    the answered and the unanswered questions are together all questions,
    and the warning is shown exactly when some question is unanswered.
    Right after the load every question is unanswered. *)
Theorem modal_counts id (s : State) :
  reachable id s ->
  (answeredCount s + unansweredCount s)%nat = length (questions s) /\
  (warns s = true <-> (answeredCount s < length (questions s))%nat) /\
  (forall quizData questionsData,
     unansweredCount (step id (FetchDone (Fetched quizData questionsData)) init)
       = length questionsData).
Proof.
  intros Hr. destruct (answers_follow_questions_aux id s Hr) as [_ Hlen].
  pose proof (filter_split (fun a => selected_option a =? -1) (current_answers s)) as Hsum.
  cbv beta in Hsum. unfold warns, answeredCount, unansweredCount.
  split; [lia|]. split.
  - rewrite Nat.ltb_lt. lia.
  - intros quizData questionsData. unfold unansweredCount, current_answers.
    simpl. rewrite (deref_all (initialAnswers questionsData)).
    unfold initialAnswers. induction questionsData as [|q qs IH]; [done|].
    simpl. by rewrite IH.
Qed.

Lemma formatTime_spec (seconds : Z) :
  0 <= seconds < 6000 ->
  formatTime seconds = two_digits (seconds / 60) ++ ":" ++ two_digits (seconds mod 60).
Proof.
  intros Hs. unfold formatTime, JS.floor_div, JS.rem.
  rewrite Z.rem_mod_nonneg by lia.
  pose proof (Z.mod_pos_bound seconds 60 ltac:(lia)).
  assert (0 <= seconds / 60 < 100).
  { split; [apply Z.div_pos; lia | apply Z.div_lt_upper_bound; lia]. }
  by rewrite !pad_two_digits by lia.
Qed.

(** X21. For a quiz whose [timeLimit] is a whole number of minutes, not
    negative and less than 100, the remaining time is always shown as
    MM:SS, two digits each: the minutes and the seconds of [timeLeft]. *)
Theorem time_shown_mm_ss id (s : State) (q : Quiz) :
  reachable id s -> quiz s = Some q -> 0 <= timeLimit q < 100 ->
  formatTime (timeLeft s) =
    two_digits (timeLeft s / 60) ++ ":" ++ two_digits (timeLeft s mod 60) /\
  String.length (formatTime (timeLeft s)) = 5%nat.
Proof.
  intros Hr Hq Hlim.
  assert (0 <= timeLeft s <= timeLimit q * 60).
  { split.
    - apply (timeLeft_nonneg id s Hr). intros q' Hq'. assert (q' = q) by congruence.
      subst. lia.
    - apply (reachable_inv2 id s Hr); [done | lia]. }
  rewrite formatTime_spec by lia. split; reflexivity.
Qed.

(** X22. Every request the component has sent carries the quiz id of the
    route, and each answer in it is for one of the page's questions and
    has an option selected; no more requests are unanswered than were
    sent. *)
Theorem requests_about_the_quiz id (s : State) (r : SubmitRequest) :
  reachable id s -> r ∈ submitted s ->
  quiz_id r = quizId id /\
  (forall a, a ∈ req_answers r ->
     question_id a ∈ map q_id (questions s) /\ selected_option a <> -1) /\
  (pending s <= length (submitted s))%nat.
Proof.
  intros Hr Hin. pose proof (reachable_inv2 id s Hr) as [_ _ _ _ _ _ Jreq Jpe].
  rewrite Forall_forall in Jreq. destruct (Jreq r Hin) as [Hid Hall].
  split; [done|]. split; [|done].
  intros a Ha. rewrite Forall_forall in Hall. by apply Hall.
Qed.

(** ** The properties on the sample quiz *)

Lemma answering_reachable :
  reachable (Some "3") (run (Some "3") (started ++ [ClickOption 101]) init).
Proof. apply reachable_run. constructor. Qed.

Lemma answers_follow_questions_witness :
  map question_id (current_answers (run (Some "3") started init)) = [11].
Proof.
  exact (proj1 (answers_follow_questions (Some "3") (run (Some "3") started init)
                  started_reachable)).
Defined.

Lemma option_recorded_witness :
  exists q,
    index (questions (run (Some "3") started init))
          (currentQuestionIndex (run (Some "3") started init)) = Some q /\
    selectedOption (step (Some "3") (ClickOption 102) (run (Some "3") started init))
      = Some 102.
Proof.
  destruct (option_recorded (Some "3") (run (Some "3") started init) 102
              started_reachable eq_refl) as (q & Hq & _ & Hsel & _).
  exists q. split; [exact Hq | exact Hsel].
Defined.

Lemma selection_shown_witness :
  selectedOption (run (Some "3") (started ++ [ClickOption 101]) init) = Some 101.
Proof.
  exact (selection_shown (Some "3") (run (Some "3") (started ++ [ClickOption 101]) init)
           {| question_id := 11; selected_option := 101 |}
           answering_reachable eq_refl ltac:(discriminate)).
Defined.

Lemma timer_runs_in_progress_witness :
  is_Some (timerRef (run (Some "3") started init)).
Proof.
  apply (timer_runs_in_progress (Some "3") (run (Some "3") started init)
           started_reachable).
  split; reflexivity.
Defined.

Lemma started_after_load_witness :
  exists quizData questionsData,
    follows (Some "3") (step (Some "3") (FetchDone (Fetched quizData questionsData)) init)
            (run (Some "3") started init) /\
    quiz (run (Some "3") started init) = Some quizData /\
    questions (run (Some "3") started init) = questionsData.
Proof.
  destruct (started_after_load (Some "3") (run (Some "3") started init)
              started_reachable eq_refl)
    as [(quizData & questionsData & Hfo & Hq & Hqs & _) _].
  exists quizData, questionsData. split; [exact Hfo | split; [exact Hq | exact Hqs]].
Defined.

Lemma time_left_within_limit_witness :
  0 <= timeLeft (step (Some "3") (Tick 1000) (run (Some "3") started init)) <= 60.
Proof.
  assert (Hr : reachable (Some "3")
                 (step (Some "3") (Tick 1000) (run (Some "3") started init))).
  { by constructor; [apply started_reachable|]. }
  exact (time_left_within_limit (Some "3") _ sample_quiz Hr eq_refl ltac:(simpl; lia)).
Defined.

Lemma time_runs_out_witness :
  phase (run (Some "3")
           (ticks (map (fun i => 1000 * Z.of_nat i) (seq 1 59) ++ [60000]))
           (run (Some "3") started init)) = Finished.
Proof.
  exact (proj1 (proj2 (time_runs_out (Some "3")
                         (map (fun i => 1000 * Z.of_nat i) (seq 1 59)) 60000
                         (run (Some "3") started init) started_reachable
                         eq_refl eq_refl eq_refl))).
Defined.

Lemma answered_reachable :
  reachable (Some "3") (run (Some "3") (started ++ [ClickOption 101; ClickNext]) init).
Proof. apply reachable_run. constructor. Qed.

Lemma finish_twice_witness :
  pending (step (Some "3") (ClickFinish 6000)
             (step (Some "3") (ClickFinish 5000)
                (run (Some "3") (started ++ [ClickOption 101; ClickNext]) init)))
  = S (S (pending (run (Some "3") (started ++ [ClickOption 101; ClickNext]) init))).
Proof.
  exact (proj1 (proj2 (proj2 (finish_twice (Some "3") _ 5000 6000 answered_reachable
                                eq_refl)))).
Defined.

Lemma failed_load_dead_end_witness :
  view (step (Some "3") (FetchDone QuizFetchFailed) init) = ErrorPage.
Proof.
  exact (proj1 (proj2 (failed_load_dead_end (Some "3") QuizFetchFailed ClickBack
                         ltac:(discriminate)))).
Defined.

Lemma modal_counts_witness :
  (answeredCount (run (Some "3") finished_by_button init)
   + unansweredCount (run (Some "3") finished_by_button init))%nat = 1%nat.
Proof.
  exact (proj1 (modal_counts (Some "3") (run (Some "3") finished_by_button init)
                  finished_by_button_reachable)).
Defined.

Lemma time_shown_mm_ss_witness :
  formatTime (timeLeft (run (Some "3") started init)) = "01:00".
Proof.
  exact (proj1 (time_shown_mm_ss (Some "3") (run (Some "3") started init) sample_quiz
                  started_reachable eq_refl ltac:(simpl; lia))).
Defined.

Lemma finishQuiz_sends id (s : State) (endTime : Z) :
  submitted (step id (ClickFinish endTime) s) = request id (answers s) endTime s :: submitted s.
Proof.
  destruct (step_fields id (ClickFinish endTime) s) as (_ & _ & _ & -> & _). by destruct s.
Qed.

Lemma requests_about_the_quiz_witness :
  quiz_id (request (Some "3")
             (answers (run (Some "3") (started ++ [ClickOption 101; ClickNext]) init)) 5000
             (run (Some "3") (started ++ [ClickOption 101; ClickNext]) init))
  = quizId (Some "3").
Proof.
  assert (Hr : reachable (Some "3")
                 (step (Some "3") (ClickFinish 5000)
                    (run (Some "3") (started ++ [ClickOption 101; ClickNext]) init))).
  { constructor; [apply answered_reachable | reflexivity]. }
  refine (proj1 (requests_about_the_quiz (Some "3") _ _ Hr _)).
  rewrite finishQuiz_sends. left.
Defined.

End TakeQuizMore.
